(** * Proposal writer: ownership and consistency of proposals and sections

    A shallow embedding of the server actions of [src/actions/index.ts]
    over the two tables of [db/tables.ts].

    - JavaScript values that reach an action are [Js.value]s; numbers are
      IEEE 754 doubles ([spec_float]).
    - The [input:] schemas are written with a small model of the zod
      combinators the source uses ([z.string], [z.number], [min], [int],
      [positive], [optional]).
    - The tables are lists of rows in insertion order.  The query builder is
      modelled in [Db]: every query appends itself to a log, so that "no
      data access" is a statement about that log.
    - What the database and its client do to the values of a statement
      is modelled in [Sql] and in the writing queries of [Db]: the
      primary key of [Proposals] and the reference from a section to its
      proposal are enforced; a number that is not finite is refused
      before the statement is sent; a text is handed back up to its
      first U+0000 and an integer only when it is a safe one, so a
      statement with [.returning()] can throw after it was applied.
    - A handler is a computation in the monad [Action]: it reads the
      runtime ([new Date()], [crypto.randomUUID()]), threads the world
      (database, query log) and may throw. *)

From Stdlib Require Import List String Ascii ZArith Bool Lia.
From Stdlib Require Import Floats.SpecFloat.
Import ListNotations.

Local Open Scope string_scope.
Local Open Scope list_scope.

Set Warnings "-register-all".

(* ================================================================== *)
(** ** JavaScript values                                                *)
(* ================================================================== *)

Module Js.

(** A JavaScript [number]. *)
Definition number := spec_float.

Inductive value : Type :=
| VUndefined
| VNull
| VBoolean (b : bool)
| VNumber (n : number)
| VString (s : string)
| VArray (items : list value)
| VObject (props : list (string * value)).

(** [obj[key]]: the value of the property, [undefined] when it is absent. *)
Fixpoint getProp (props : list (string * value)) (key : string) : value :=
  match props with
  | [] => VUndefined
  | (k, v) :: rest => if String.eqb k key then v else getProp rest key
  end.

(** [Number.isNaN]. *)
Definition isNaN (n : number) : bool :=
  match n with S754_nan => true | _ => false end.

(** [Number.isInteger]: finite and without fractional part.  A finite
    double is [(-1)^s * m * 2^e]. *)
Definition isInteger (n : number) : bool :=
  match n with
  | S754_zero _ => true
  | S754_finite _ m e =>
      if (0 <=? e)%Z then true else (Z.pos m mod 2 ^ (- e) =? 0)%Z
  | S754_infinity _ | S754_nan => false
  end.

(** [n > 0]. *)
Definition gtZero (n : number) : bool :=
  match n with
  | S754_finite false _ _ | S754_infinity false => true
  | _ => false
  end.

(** [n === 0] (either zero) and [n < 0]. *)
Definition isZero (n : number) : bool :=
  match n with S754_zero _ => true | _ => false end.

Definition ltZero (n : number) : bool :=
  match n with
  | S754_finite true _ _ | S754_infinity true => true
  | _ => false
  end.

(** The double of a positive integer literal such as [1]. *)
Definition ofPos (p : positive) : number := S754_finite false p 0.

(** Truthiness of a string: only the empty string is falsy. *)
Definition truthy (s : string) : bool :=
  match s with EmptyString => false | String _ _ => true end.

End Js.

(* ================================================================== *)
(** ** The zod combinators used by the input schemas                    *)
(* ================================================================== *)

Module z.
Import Js.

(** A schema parses a value: [Some] is a successful [safeParse]. *)
Definition Schema (A : Type) : Type := value -> option A.

Definition string : Schema String.string :=
  fun v => match v with VString s => Some s | _ => None end.

(** [z.number()] rejects [NaN]. *)
Definition number : Schema Js.number :=
  fun v => match v with
           | VNumber n => if isNaN n then None else Some n
           | _ => None
           end.

Definition refine {A} (check : A -> bool) (s : Schema A) : Schema A :=
  fun v => match s v with
           | Some a => if check a then Some a else None
           | None => None
           end.

(** [.min(k)] on a string schema. *)
Definition min (k : nat) : Schema String.string -> Schema String.string :=
  refine (fun s => Nat.leb k (String.length s)).

(** [.int()] and [.positive()] on a number schema. *)
Definition int : Schema Js.number -> Schema Js.number := refine isInteger.
Definition positive : Schema Js.number -> Schema Js.number := refine gtZero.

(** [.optional()]: [undefined] passes and yields [undefined]. *)
Definition optional {A} (s : Schema A) : Schema (option A) :=
  fun v => match v with
           | VUndefined => Some None
           | _ => option_map Some (s v)
           end.

(** [z.object(shape)] accepts objects only; each key of the shape is read
    with [getProp] and unknown keys are dropped. *)
Definition object {A} (shape : list (String.string * value) -> option A)
  : Schema A :=
  fun v => match v with VObject props => shape props | _ => None end.

Definition field {A} (props : list (String.string * value))
           (key : String.string) (s : Schema A) : option A :=
  s (getProp props key).

End z.

Notation "x <-? c ;; k" :=
(match c with Some x => k | None => None end)
  (at level 61, c at next level, right associativity).

(* ================================================================== *)
(** ** Values on their way to the database and back                     *)
(* ================================================================== *)

(** What the database client does to a value.  A text comes back only up
    to its first U+0000.  A number is bound only when it is finite; the
    [number] columns are INTEGER columns, which keep [-0] as [0] and an
    integral value below 2^63 as an integer; and an integer is handed
    back only when it is a safe one (below 2^53 in magnitude), otherwise
    the client throws while it reads the row. *)
Module Sql.

Fixpoint text (s : string) : string :=
  match s with
  | EmptyString => EmptyString
  | String c rest =>
      if Ascii.eqb c Ascii.zero then EmptyString else String c (text rest)
  end.

Definition finite (n : Js.number) : bool :=
  match n with
  | S754_zero _ | S754_finite _ _ _ => true
  | S754_infinity _ | S754_nan => false
  end.

(** The value of a number that is integral. *)
Definition integer (n : Js.number) : option Z :=
  match n with
  | S754_zero _ => Some 0%Z
  | S754_finite s m e =>
      if Js.isInteger n
      then let magnitude := if (0 <=? e)%Z
                            then (Z.pos m * 2 ^ e)%Z
                            else (Z.pos m / 2 ^ (- e))%Z in
           Some (if s then (- magnitude)%Z else magnitude)
      else None
  | S754_infinity _ | S754_nan => None
  end.

(** An integer the column stores as such and the client refuses to hand
    back. *)
Definition unsafe (n : Js.number) : bool :=
  match integer n with
  | Some v => (2 ^ 53 <=? Z.abs v)%Z && (Z.abs v <? 2 ^ 63)%Z
  | None => false
  end.

(** The number as the column holds it. *)
Definition number (n : Js.number) : Js.number :=
  match n with
  | S754_zero _ => S754_zero false
  | _ => n
  end.

Definition bindable (o : option Js.number) : bool :=
  match o with Some n => finite n | None => true end.

Definition readable (o : option Js.number) : bool :=
  match o with Some n => negb (unsafe n) | None => true end.

(** Whether a string begins with U+0000. *)
Definition startsWithNul (s : string) : bool :=
  match s with
  | String c _ => Ascii.eqb c Ascii.zero
  | EmptyString => false
  end.

End Sql.

(* ================================================================== *)
(** ** Tables ([db/tables.ts])                                          *)
(* ================================================================== *)

(** A date is its time value, the milliseconds since the epoch. *)
Definition Date := Z.

(** An [optional] column holds [None] for NULL. *)
Module Proposals.

Record row : Type := {
  id : string;                       (* primary key *)
  userId : string;
  title : string;
  clientName : option string;
  projectName : option string;
  currency : option string;
  estimatedValue : option Js.number;
  status : option string;
  notes : option string;
  createdAt : Date;
  updatedAt : Date
}.

(** The object handed to [.set(...)]: a key is [Some] when it is present
    with a defined value. *)
Record changes : Type := {
  set_title : option string;
  set_clientName : option string;
  set_projectName : option string;
  set_currency : option string;
  set_estimatedValue : option Js.number;
  set_status : option string;
  set_notes : option string;
  set_updatedAt : option Date
}.

Definition orElse {A} (new : option A) (old : A) : A :=
  match new with Some v => v | None => old end.

Definition orKeep {A} (new : option A) (old : option A) : option A :=
  match new with Some v => Some v | None => old end.

(** The row after [UPDATE ... SET]: the keys of the object are assigned,
    [id], [userId] and [createdAt] are never among them. *)
Definition assign (c : changes) (r : row) : row :=
  {| id := id r;
     userId := userId r;
     title := orElse (set_title c) (title r);
     clientName := orKeep (set_clientName c) (clientName r);
     projectName := orKeep (set_projectName c) (projectName r);
     currency := orKeep (set_currency c) (currency r);
     estimatedValue := orKeep (set_estimatedValue c) (estimatedValue r);
     status := orKeep (set_status c) (status r);
     notes := orKeep (set_notes c) (notes r);
     createdAt := createdAt r;
     updatedAt := orElse (set_updatedAt c) (updatedAt r) |}.

(** The row as the table holds it and hands it back: the text columns
    that are no keys up to their first U+0000, the number as the column
    holds it.  The key columns [id] and [userId] are compared as they are
    given and are kept so; what is stated below about a key that is
    handed back is stated for keys without U+0000. *)
Definition stored (r : row) : row :=
  {| id := id r;
     userId := userId r;
     title := Sql.text (title r);
     clientName := option_map Sql.text (clientName r);
     projectName := option_map Sql.text (projectName r);
     currency := option_map Sql.text (currency r);
     estimatedValue := option_map Sql.number (estimatedValue r);
     status := option_map Sql.text (status r);
     notes := option_map Sql.text (notes r);
     createdAt := createdAt r;
     updatedAt := updatedAt r |}.

(** The same for the object handed to [.set(...)]. *)
Definition storedChanges (c : changes) : changes :=
  {| set_title := option_map Sql.text (set_title c);
     set_clientName := option_map Sql.text (set_clientName c);
     set_projectName := option_map Sql.text (set_projectName c);
     set_currency := option_map Sql.text (set_currency c);
     set_estimatedValue := option_map Sql.number (set_estimatedValue c);
     set_status := option_map Sql.text (set_status c);
     set_notes := option_map Sql.text (set_notes c);
     set_updatedAt := set_updatedAt c |}.

(** Whether the client hands the row back. *)
Definition readable (r : row) : bool := Sql.readable (estimatedValue r).

End Proposals.

Module ProposalSections.

Record row : Type := {
  id : option string;                (* primary key; NULL when no value was given *)
  proposalId : string;               (* references Proposals.id *)
  type : option string;
  orderIndex : Js.number;
  heading : option string;
  content : string;
  createdAt : Date
}.

(** The object [baseValues] of [saveSection]: it has no [id] key, and
    [type] and [heading] are [undefined] ([None]) when the input omits
    them. *)
Record values : Type := {
  v_proposalId : string;
  v_type : option string;
  v_orderIndex : Js.number;
  v_heading : option string;
  v_content : string;
  v_createdAt : Date
}.

(** The row an [INSERT] of [values] creates.  The query builder inserts
    NULL for a column whose key is missing or [undefined] and that has no
    default; [id] is such a column. *)
Definition inserted (v : values) : row :=
  {| id := None;
     proposalId := v_proposalId v;
     type := v_type v;
     orderIndex := v_orderIndex v;
     heading := v_heading v;
     content := v_content v;
     createdAt := v_createdAt v |}.

(** The row after [UPDATE ... SET values].  The query builder ignores the
    keys of the object given to [.set(...)] whose value is [undefined]
    (a column is cleared by passing [null]), so such a column keeps what
    it holds. *)
Definition assign (v : values) (r : row) : row :=
  {| id := id r;
     proposalId := v_proposalId v;
     type := Proposals.orKeep (v_type v) (type r);
     orderIndex := v_orderIndex v;
     heading := Proposals.orKeep (v_heading v) (heading r);
     content := v_content v;
     createdAt := v_createdAt v |}.

(** [eq(ProposalSections.id, x)]: NULL equals nothing. *)
Definition idIs (x : string) (r : row) : bool :=
  match id r with Some i => String.eqb i x | None => false end.

(** The row as the table holds it and hands it back (see
    [Proposals.stored]); the key columns [id] and [proposalId] are kept
    as given. *)
Definition stored (r : row) : row :=
  {| id := id r;
     proposalId := proposalId r;
     type := option_map Sql.text (type r);
     orderIndex := Sql.number (orderIndex r);
     heading := option_map Sql.text (heading r);
     content := Sql.text (content r);
     createdAt := createdAt r |}.

(** Whether the client hands the row back. *)
Definition readable (r : row) : bool := negb (Sql.unsafe (orderIndex r)).

End ProposalSections.

Record Database : Type := {
  tProposals : list Proposals.row;
  tProposalSections : list ProposalSections.row
}.

(* ================================================================== *)
(** ** Worlds, exceptions and the monad of actions                      *)
(* ================================================================== *)

Inductive Table : Type := TProposals | TProposalSections.

(** One entry per query sent to the database. *)
Inductive Query : Type :=
| Select (t : Table)
| Insert (t : Table)
| Update (t : Table)
| Delete (t : Table).

(** What the handler cannot compute itself: the k-th reading of the clock
    and the k-th random UUID. *)
Record Runtime : Type := {
  clock : nat -> Date;
  uuid : nat -> string
}.

Record World : Type := {
  db : Database;
  queries : list Query;     (* oldest first *)
  dateReads : nat;
  uuidReads : nat
}.

(** The world before the first request: empty tables, nothing read. *)
Definition emptyWorld : World :=
  {| db := {| tProposals := []; tProposalSections := [] |};
     queries := []; dateReads := 0; uuidReads := 0 |}.

Inductive ErrorCode : Type := UNAUTHORIZED | NOT_FOUND.

Inductive Exception : Type :=
| ActionError (code : ErrorCode) (message : string)
| ActionInputError          (* the input does not match the schema *)
| ConstraintError           (* the database refuses a duplicate primary key *)
| ForeignKeyError           (* the database refuses to break a reference *)
| RangeError.               (* the client refuses a number: one that is not
                               finite on its way in, an unsafe integer on
                               its way back *)

Inductive Completion (A : Type) : Type :=
| Return (a : A)
| Throw (e : Exception).
Arguments Return {A} a.
Arguments Throw {A} e.

Definition Action (A : Type) : Type := Runtime -> World -> Completion A * World.

Definition ret {A} (a : A) : Action A := fun _ w => (Return a, w).

Definition throw {A} (e : Exception) : Action A := fun _ w => (Throw e, w).

Definition bind {A B} (c : Action A) (k : A -> Action B) : Action B :=
  fun rt w =>
    match c rt w with
    | (Return a, w') => k a rt w'
    | (Throw e, w') => (Throw e, w')
    end.

Notation "x <- c ;; k" := (bind c (fun x => k))
  (at level 61, c at next level, right associativity).

(** [new Date()]. *)
Definition newDate : Action Date :=
  fun rt w =>
    (Return (clock rt (dateReads w)),
     {| db := db w; queries := queries w;
        dateReads := S (dateReads w); uuidReads := uuidReads w |}).

(** [crypto.randomUUID()]. *)
Definition randomUUID : Action string :=
  fun rt w =>
    (Return (uuid rt (uuidReads w)),
     {| db := db w; queries := queries w;
        dateReads := dateReads w; uuidReads := S (uuidReads w) |}).

(* ================================================================== *)
(** ** The query builder                                                *)
(* ================================================================== *)

Module Db.

Definition logged (q : Query) (d : Database) (w : World) : World :=
  {| db := d; queries := queries w ++ [q];
     dateReads := dateReads w; uuidReads := uuidReads w |}.

(** [.limit(n)] when given. *)
Definition limited {A} (limit : option nat) (rows : list A) : list A :=
  match limit with Some n => firstn n rows | None => rows end.

(** [db.select().from(Proposals).where(w).limit(n)] *)
Definition selectProposals (where_ : Proposals.row -> bool) (limit : option nat)
  : Action (list Proposals.row) :=
  fun _ w =>
    (Return (limited limit (filter where_ (tProposals (db w)))),
     logged (Select TProposals) (db w) w).

(** [db.select().from(ProposalSections).where(w).limit(n)] *)
Definition selectSections (where_ : ProposalSections.row -> bool) (limit : option nat)
  : Action (list ProposalSections.row) :=
  fun _ w =>
    (Return (limited limit (filter where_ (tProposalSections (db w)))),
     logged (Select TProposalSections) (db w) w).

(** [db.insert(Proposals).values(r).returning()].  The client refuses a
    number that is not finite before anything is sent; the primary key
    must be new; the row is stored; the client then reads it back for
    [.returning()] and throws when it holds an unsafe integer, after the
    row was stored. *)
Definition insertProposal (r : Proposals.row) : Action (list Proposals.row) :=
  fun _ w =>
    if negb (Sql.bindable (Proposals.estimatedValue r))
    then (Throw RangeError, w)
    else if existsb (fun p => String.eqb (Proposals.id p) (Proposals.id r))
                    (tProposals (db w))
    then (Throw ConstraintError, logged (Insert TProposals) (db w) w)
    else
      let w' := logged (Insert TProposals)
                       {| tProposals := tProposals (db w) ++ [Proposals.stored r];
                          tProposalSections := tProposalSections (db w) |} w in
      if Proposals.readable (Proposals.stored r)
      then (Return [Proposals.stored r], w')
      else (Throw RangeError, w').

(** [db.insert(ProposalSections).values(v).returning()].  As for
    proposals; moreover [proposalId] references [Proposals.id], so the
    parent must exist. *)
Definition insertSection (v : ProposalSections.values)
  : Action (list ProposalSections.row) :=
  fun _ w =>
    if negb (Sql.finite (ProposalSections.v_orderIndex v))
    then (Throw RangeError, w)
    else if negb (existsb (fun p => String.eqb (Proposals.id p)
                                               (ProposalSections.v_proposalId v))
                          (tProposals (db w)))
    then (Throw ForeignKeyError, logged (Insert TProposalSections) (db w) w)
    else
      let s := ProposalSections.stored (ProposalSections.inserted v) in
      let w' := logged (Insert TProposalSections)
                       {| tProposals := tProposals (db w);
                          tProposalSections := tProposalSections (db w) ++ [s] |}
                       w in
      if ProposalSections.readable s
      then (Return [s], w')
      else (Throw RangeError, w').

(** [db.update(Proposals).set(c).where(w).returning()].  The client
    refuses a number that is not finite before anything is sent; the
    rows are updated; the client then reads them back and throws when
    one holds an unsafe integer, after the update was applied. *)
Definition updateProposals (c : Proposals.changes) (where_ : Proposals.row -> bool)
  : Action (list Proposals.row) :=
  fun _ w =>
    if negb (Sql.bindable (Proposals.set_estimatedValue c))
    then (Throw RangeError, w)
    else
      let c' := Proposals.storedChanges c in
      let rows := map (Proposals.assign c') (filter where_ (tProposals (db w))) in
      let w' := logged (Update TProposals)
                       {| tProposals :=
                            map (fun r => if where_ r
                                          then Proposals.assign c' r else r)
                                (tProposals (db w));
                          tProposalSections := tProposalSections (db w) |} w in
      if forallb Proposals.readable rows
      then (Return rows, w')
      else (Throw RangeError, w').

(** [db.update(ProposalSections).set(v).where(w).returning()] *)
Definition updateSections (v : ProposalSections.values)
           (where_ : ProposalSections.row -> bool)
  : Action (list ProposalSections.row) :=
  fun _ w =>
    (Return (map (ProposalSections.assign v)
                 (filter where_ (tProposalSections (db w)))),
     logged (Update TProposalSections)
            {| tProposals := tProposals (db w);
               tProposalSections :=
                 map (fun r => if where_ r then ProposalSections.assign v r else r)
                     (tProposalSections (db w)) |} w).

(** Whether a stored section refers to the proposal. *)
Definition referenced (sections : list ProposalSections.row) (p : Proposals.row)
  : bool :=
  existsb (fun s => String.eqb (ProposalSections.proposalId s) (Proposals.id p))
          sections.

(** [db.delete(Proposals).where(w).returning()].  [proposalId] references
    [Proposals.id] and declares no action on delete: the database refuses
    the statement, and removes nothing, when a section refers to a row it
    selects.  Otherwise the rows are removed; the client then reads them
    back and throws when one holds an unsafe integer, after the rows were
    removed. *)
Definition deleteProposals (where_ : Proposals.row -> bool)
  : Action (list Proposals.row) :=
  fun _ w =>
    let rows := filter where_ (tProposals (db w)) in
    if existsb (referenced (tProposalSections (db w))) rows
    then (Throw ForeignKeyError, logged (Delete TProposals) (db w) w)
    else
      let w' := logged (Delete TProposals)
                       {| tProposals :=
                            filter (fun r => negb (where_ r)) (tProposals (db w));
                          tProposalSections := tProposalSections (db w) |} w in
      if forallb Proposals.readable rows
      then (Return rows, w')
      else (Throw RangeError, w').

(** [db.delete(ProposalSections).where(w).returning()] *)
Definition deleteSections (where_ : ProposalSections.row -> bool)
  : Action (list ProposalSections.row) :=
  fun _ w =>
    (Return (filter where_ (tProposalSections (db w))),
     logged (Delete TProposalSections)
            {| tProposals := tProposals (db w);
               tProposalSections :=
                 filter (fun r => negb (where_ r)) (tProposalSections (db w)) |} w).

End Db.

(* ================================================================== *)
(** ** Request context and [requireUser]                                *)
(* ================================================================== *)

Module App.

Record User : Type := { id : string }.

Record Locals : Type := { user : option User }.

End App.

Record ActionAPIContext : Type := { locals : option App.Locals }.

(** [context.locals?.user] *)
Definition localsUser (context : ActionAPIContext) : option App.User :=
  match locals context with
  | Some l => App.user l
  | None => None
  end.

Definition requireUser (context : ActionAPIContext) : Action App.User :=
  match localsUser context with
  | None =>
      throw (ActionError UNAUTHORIZED
                         "You must be signed in to perform this action.")
  | Some user => ret user
  end.

(** A context that carries the identity [u], and one that carries none. *)
Definition signedIn (u : App.User) : ActionAPIContext :=
  {| locals := Some {| App.user := Some u |} |}.

Definition anonymous : ActionAPIContext :=
  {| locals := Some {| App.user := None |} |}.

(* ================================================================== *)
(** ** Input schemas                                                    *)
(* ================================================================== *)

Module input.
Import Js.

Record CreateProposal : Type := {
  cp_id : option string;
  cp_title : string;
  cp_clientName : option string;
  cp_projectName : option string;
  cp_currency : option string;
  cp_estimatedValue : option number;
  cp_status : option string;
  cp_notes : option string
}.

(** The properties of [updateProposal]'s input other than [id]
    ([const { id, ...rest } = input]). *)
Record Rest : Type := {
  title : option string;
  clientName : option string;
  projectName : option string;
  currency : option string;
  estimatedValue : option number;
  status : option string;
  notes : option string
}.

Record UpdateProposal : Type := { up_id : string; rest : Rest }.

Record ById : Type := { id : string }.

Record SaveSection : Type := {
  ss_id : option string;
  ss_proposalId : string;
  ss_type : option string;
  ss_orderIndex : number;
  ss_heading : option string;
  ss_content : string
}.

Record DeleteSection : Type := { ds_id : string; ds_proposalId : string }.

Definition createProposal : z.Schema CreateProposal :=
  z.object (fun o =>
    i <-? z.field o "id" (z.optional z.string) ;;
    t <-? z.field o "title" (z.min 1 z.string) ;;
    cn <-? z.field o "clientName" (z.optional z.string) ;;
    pn <-? z.field o "projectName" (z.optional z.string) ;;
    cu <-? z.field o "currency" (z.optional z.string) ;;
    ev <-? z.field o "estimatedValue" (z.optional z.number) ;;
    st <-? z.field o "status" (z.optional z.string) ;;
    no <-? z.field o "notes" (z.optional z.string) ;;
    Some {| cp_id := i; cp_title := t; cp_clientName := cn;
            cp_projectName := pn; cp_currency := cu;
            cp_estimatedValue := ev; cp_status := st; cp_notes := no |}).

Definition updateProposal : z.Schema UpdateProposal :=
  z.object (fun o =>
    i <-? z.field o "id" z.string ;;
    t <-? z.field o "title" (z.optional (z.min 1 z.string)) ;;
    cn <-? z.field o "clientName" (z.optional z.string) ;;
    pn <-? z.field o "projectName" (z.optional z.string) ;;
    cu <-? z.field o "currency" (z.optional z.string) ;;
    ev <-? z.field o "estimatedValue" (z.optional z.number) ;;
    st <-? z.field o "status" (z.optional z.string) ;;
    no <-? z.field o "notes" (z.optional z.string) ;;
    Some {| up_id := i;
            rest := {| title := t; clientName := cn; projectName := pn;
                       currency := cu; estimatedValue := ev;
                       status := st; notes := no |} |}).

(** [z.object({}).optional()] *)
Definition listProposals : z.Schema (option unit) :=
  z.optional (z.object (fun _ => Some tt)).

Definition byId : z.Schema ById :=
  z.object (fun o =>
    i <-? z.field o "id" z.string ;;
    Some {| id := i |}).

Definition deleteProposal : z.Schema ById := byId.

Definition getProposalWithSections : z.Schema ById := byId.

Definition saveSection : z.Schema SaveSection :=
  z.object (fun o =>
    i <-? z.field o "id" (z.optional z.string) ;;
    p <-? z.field o "proposalId" z.string ;;
    t <-? z.field o "type" (z.optional z.string) ;;
    oi <-? z.field o "orderIndex" (z.positive (z.int z.number)) ;;
    h <-? z.field o "heading" (z.optional z.string) ;;
    c <-? z.field o "content" (z.min 1 z.string) ;;
    Some {| ss_id := i; ss_proposalId := p; ss_type := t;
            ss_orderIndex := oi; ss_heading := h; ss_content := c |}).

Definition deleteSection : z.Schema DeleteSection :=
  z.object (fun o =>
    i <-? z.field o "id" z.string ;;
    p <-? z.field o "proposalId" z.string ;;
    Some {| ds_id := i; ds_proposalId := p |}).

End input.

(* ================================================================== *)
(** ** Handlers                                                         *)
(* ================================================================== *)

Definition notFound {A} (message : string) : Action A :=
  throw (ActionError NOT_FOUND message).

(** [and(eq(Proposals.id, id), eq(Proposals.userId, user.id))] *)
Definition ownedBy (id : string) (user : App.User) (p : Proposals.row) : bool :=
  String.eqb (Proposals.id p) id && String.eqb (Proposals.userId p) (App.id user).

(** The keys of [updateData]: the entries of [rest] whose value is not
    [undefined], in the order of the schema. *)
Definition entry {A} (key : string) (v : option A) : list string :=
  match v with Some _ => [key] | None => [] end.

Definition updateDataKeys (r : input.Rest) : list string :=
  entry "title" (input.title r) ++
  entry "clientName" (input.clientName r) ++
  entry "projectName" (input.projectName r) ++
  entry "currency" (input.currency r) ++
  entry "estimatedValue" (input.estimatedValue r) ++
  entry "status" (input.status r) ++
  entry "notes" (input.notes r).

(** [{ ...updateData, updatedAt }] *)
Definition withUpdatedAt (r : input.Rest) (updatedAt : Date) : Proposals.changes :=
  {| Proposals.set_title := input.title r;
     Proposals.set_clientName := input.clientName r;
     Proposals.set_projectName := input.projectName r;
     Proposals.set_currency := input.currency r;
     Proposals.set_estimatedValue := input.estimatedValue r;
     Proposals.set_status := input.status r;
     Proposals.set_notes := input.notes r;
     Proposals.set_updatedAt := Some updatedAt |}.

Module handler.

Definition createProposal (i : input.CreateProposal) (context : ActionAPIContext)
  : Action (option Proposals.row) :=
  user <- requireUser context ;;
  id <- match input.cp_id i with
        | Some id => ret id
        | None => randomUUID
        end ;;
  createdAt <- newDate ;;
  updatedAt <- newDate ;;
  rows <- Db.insertProposal
            {| Proposals.id := id;
               Proposals.userId := App.id user;
               Proposals.title := input.cp_title i;
               Proposals.clientName := input.cp_clientName i;
               Proposals.projectName := input.cp_projectName i;
               Proposals.currency := input.cp_currency i;
               Proposals.estimatedValue := input.cp_estimatedValue i;
               Proposals.status := input.cp_status i;
               Proposals.notes := input.cp_notes i;
               Proposals.createdAt := createdAt;
               Proposals.updatedAt := updatedAt |} ;;
  ret (hd_error rows).

Definition updateProposal (i : input.UpdateProposal) (context : ActionAPIContext)
  : Action (option Proposals.row) :=
  user <- requireUser context ;;
  found <- Db.selectProposals (ownedBy (input.up_id i) user) (Some 1) ;;
  match hd_error found with
  | None => notFound "Proposal not found."
  | Some existing =>
      if Nat.eqb (List.length (updateDataKeys (input.rest i))) 0
      then ret (Some existing)
      else
        now <- newDate ;;
        rows <- Db.updateProposals (withUpdatedAt (input.rest i) now)
                                   (ownedBy (input.up_id i) user) ;;
        ret (hd_error rows)
  end.

Definition listProposals (_ : option unit) (context : ActionAPIContext)
  : Action (list Proposals.row) :=
  user <- requireUser context ;;
  Db.selectProposals
    (fun p => String.eqb (Proposals.userId p) (App.id user)) None.

Definition deleteProposal (i : input.ById) (context : ActionAPIContext)
  : Action Proposals.row :=
  user <- requireUser context ;;
  rows <- Db.deleteProposals (ownedBy (input.id i) user) ;;
  match hd_error rows with
  | None => notFound "Proposal not found."
  | Some deleted => ret deleted
  end.

Definition saveSection (i : input.SaveSection) (context : ActionAPIContext)
  : Action (option ProposalSections.row) :=
  user <- requireUser context ;;
  found <- Db.selectProposals (ownedBy (input.ss_proposalId i) user) (Some 1) ;;
  match hd_error found with
  | None => notFound "Proposal not found."
  | Some _ =>
      now <- newDate ;;
      let baseValues :=
        {| ProposalSections.v_proposalId := input.ss_proposalId i;
           ProposalSections.v_type := input.ss_type i;
           ProposalSections.v_orderIndex := input.ss_orderIndex i;
           ProposalSections.v_heading := input.ss_heading i;
           ProposalSections.v_content := input.ss_content i;
           ProposalSections.v_createdAt := now |} in
      match input.ss_id i with
      | Some id =>
          if Js.truthy id then
            sel <- Db.selectSections (ProposalSections.idIs id) (Some 1) ;;
            match hd_error sel with
            | None => notFound "Section not found."
            | Some existing =>
                if negb (String.eqb (ProposalSections.proposalId existing)
                                    (input.ss_proposalId i))
                then notFound "Section not found."
                else
                  rows <- Db.updateSections baseValues
                                            (ProposalSections.idIs id) ;;
                  ret (hd_error rows)
            end
          else
            rows <- Db.insertSection baseValues ;;
            ret (hd_error rows)
      | None =>
          rows <- Db.insertSection baseValues ;;
          ret (hd_error rows)
      end
  end.

Definition deleteSection (i : input.DeleteSection) (context : ActionAPIContext)
  : Action ProposalSections.row :=
  user <- requireUser context ;;
  found <- Db.selectProposals (ownedBy (input.ds_proposalId i) user) (Some 1) ;;
  match hd_error found with
  | None => notFound "Proposal not found."
  | Some _ =>
      rows <- Db.deleteSections
                (fun s => ProposalSections.idIs (input.ds_id i) s
                          && String.eqb (ProposalSections.proposalId s)
                                        (input.ds_proposalId i)) ;;
      match hd_error rows with
      | None => notFound "Section not found."
      | Some deleted => ret deleted
      end
  end.

Definition getProposalWithSections (i : input.ById) (context : ActionAPIContext)
  : Action (Proposals.row * list ProposalSections.row) :=
  user <- requireUser context ;;
  found <- Db.selectProposals (ownedBy (input.id i) user) (Some 1) ;;
  match hd_error found with
  | None => notFound "Proposal not found."
  | Some proposal =>
      sections <- Db.selectSections
                    (fun s => String.eqb (ProposalSections.proposalId s)
                                         (input.id i)) None ;;
      ret (proposal, sections)
  end.

End handler.

(* ================================================================== *)
(** ** The exposed actions                                              *)
(* ================================================================== *)

(** [defineAction({ input, handler })]: the framework parses the raw
    input with the schema before it calls the handler.  When parsing
    fails it throws the input error and the handler does not run; when it
    succeeds the handler runs on the parsed input. *)
Definition defineAction {I O} (schema : z.Schema I)
           (h : I -> ActionAPIContext -> Action O)
  : Js.value -> ActionAPIContext -> Action O :=
  fun raw context =>
    match schema raw with
    | None => throw ActionInputError
    | Some i => h i context
    end.

Module server.

Definition createProposal := defineAction input.createProposal handler.createProposal.
Definition updateProposal := defineAction input.updateProposal handler.updateProposal.
Definition listProposals := defineAction input.listProposals handler.listProposals.
Definition deleteProposal := defineAction input.deleteProposal handler.deleteProposal.
Definition saveSection := defineAction input.saveSection handler.saveSection.
Definition deleteSection := defineAction input.deleteSection handler.deleteSection.
Definition getProposalWithSections :=
  defineAction input.getProposalWithSections handler.getProposalWithSections.

End server.

(** The seven operations behind one entry point, for statements about
    every operation. *)
Inductive Operation : Type :=
| CreateProposal | UpdateProposal | ListProposals | DeleteProposal
| SaveSection | DeleteSection | GetProposalWithSections.

Inductive Output : Type :=
| OProposal (proposal : option Proposals.row)
| OProposals (proposals : list Proposals.row)
| ODeleted (proposal : Proposals.row)
| OSection (section : option ProposalSections.row)
| ODeletedSection (section : ProposalSections.row)
| OProposalWithSections (proposal : Proposals.row)
                        (sections : list ProposalSections.row).

Definition fmap {A B} (f : A -> B) (c : Action A) : Action B :=
  a <- c ;; ret (f a).

Definition call (op : Operation) (raw : Js.value) (context : ActionAPIContext)
  : Action Output :=
  match op with
  | CreateProposal => fmap OProposal (server.createProposal raw context)
  | UpdateProposal => fmap OProposal (server.updateProposal raw context)
  | ListProposals => fmap OProposals (server.listProposals raw context)
  | DeleteProposal => fmap ODeleted (server.deleteProposal raw context)
  | SaveSection => fmap OSection (server.saveSection raw context)
  | DeleteSection => fmap ODeletedSection (server.deleteSection raw context)
  | GetProposalWithSections =>
      fmap (fun r => OProposalWithSections (fst r) (snd r))
           (server.getProposalWithSections raw context)
  end.

(* ================================================================== *)
(** ** Invariants of the database                                       *)
(* ================================================================== *)

(** [Proposals.id] is a primary key. *)
Definition keysUnique (d : Database) : Prop :=
  NoDup (map Proposals.id (tProposals d)).

(** Every persisted proposal has a non-empty title. *)
Definition titlesNonEmpty (d : Database) : Prop :=
  Forall (fun p => Proposals.title p <> "") (tProposals d).

(** The stored proposal reads back as it is: no text of it holds U+0000,
    its number is one the column holds and the client hands back. *)
Definition readsBack (p : Proposals.row) : Prop :=
  Sql.text (Proposals.id p) = Proposals.id p
  /\ Sql.text (Proposals.userId p) = Proposals.userId p
  /\ Proposals.stored p = p
  /\ Proposals.readable p = true.

(** The same for a stored section. *)
Definition sectionReadsBack (s : ProposalSections.row) : Prop :=
  option_map Sql.text (ProposalSections.id s) = ProposalSections.id s
  /\ Sql.text (ProposalSections.proposalId s) = ProposalSections.proposalId s
  /\ ProposalSections.stored s = s
  /\ ProposalSections.readable s = true.

(** Whether the [title] of the raw input is a string that begins with
    U+0000. *)
Definition titleBeginsWithNul (raw : Js.value) : bool :=
  match raw with
  | Js.VObject props =>
      match Js.getProp props "title" with
      | Js.VString t => Sql.startsWithNul t
      | _ => false
      end
  | _ => false
  end.

(** The clock does not run backwards. *)
Definition monotone (rt : Runtime) : Prop :=
  forall k, (clock rt k <= clock rt (S k))%Z.

(** No stored [updatedAt] is later than the next reading of the clock. *)
Definition notAhead (rt : Runtime) (w : World) : Prop :=
  Forall (fun p => (Proposals.updatedAt p <= clock rt (dateReads w))%Z)
         (tProposals (db w)).

(** How one operation may change the proposals table: not at all, by one
    new row, by assigning to the rows a condition selects, or by removing
    rows. *)
Inductive proposalsStep (rt : Runtime) (w w' : World) : Prop :=
| StepSame :
    tProposals (db w') = tProposals (db w) ->
    dateReads w <= dateReads w' ->
    proposalsStep rt w w'
| StepInsert (r : Proposals.row) :
    tProposals (db w') = tProposals (db w) ++ [r] ->
    ~ In (Proposals.id r) (map Proposals.id (tProposals (db w))) ->
    Proposals.updatedAt r = clock rt (S (dateReads w)) ->
    dateReads w' = S (S (dateReads w)) ->
    proposalsStep rt w w'
| StepUpdate (c : Proposals.changes) (where_ : Proposals.row -> bool) :
    tProposals (db w')
    = map (fun r => if where_ r then Proposals.assign c r else r)
          (tProposals (db w)) ->
    Proposals.set_updatedAt c = Some (clock rt (dateReads w)) ->
    dateReads w' = S (dateReads w) ->
    proposalsStep rt w w'
| StepDelete (keep : Proposals.row -> bool) :
    tProposals (db w') = filter keep (tProposals (db w)) ->
    dateReads w' = dateReads w ->
    proposalsStep rt w w'.

(** The worlds the operations can bring about from the empty one. *)
Inductive reachable (rt : Runtime) : World -> Prop :=
| ReachEmpty : reachable rt emptyWorld
| ReachCall op raw context w :
    reachable rt w -> reachable rt (snd (call op raw context rt w)).

(** Whether the raw input passes the schema of the operation. *)
Definition isSome {A} (o : option A) : bool :=
  match o with Some _ => true | None => false end.

Definition accepts (op : Operation) (raw : Js.value) : bool :=
  match op with
  | CreateProposal => isSome (input.createProposal raw)
  | UpdateProposal => isSome (input.updateProposal raw)
  | ListProposals => isSome (input.listProposals raw)
  | DeleteProposal => isSome (input.deleteProposal raw)
  | SaveSection => isSome (input.saveSection raw)
  | DeleteSection => isSome (input.deleteSection raw)
  | GetProposalWithSections => isSome (input.getProposalWithSections raw)
  end.

Definition unauthorized : Exception :=
  ActionError UNAUTHORIZED "You must be signed in to perform this action.".

Definition proposalNotFound : Exception :=
  ActionError NOT_FOUND "Proposal not found.".

Definition sectionNotFound : Exception :=
  ActionError NOT_FOUND "Section not found.".

(** [rest] when the input has no property but [id]. *)
Definition noFields : input.Rest :=
  {| input.title := None; input.clientName := None;
     input.projectName := None; input.currency := None;
     input.estimatedValue := None; input.status := None;
     input.notes := None |}.

(* ================================================================== *)
(** ** Invariants and steps of the sections table                       *)
(* ================================================================== *)

(** The ids of the sections that have one. *)
Definition sectionKeys (l : list ProposalSections.row) : list string :=
  flat_map (fun s => match ProposalSections.id s with
                     | Some i => [i]
                     | None => []
                     end) l.

(** [ProposalSections.id] is a primary key: no two rows share an id (rows
    without an id are not compared). *)
Definition sectionKeysUnique (d : Database) : Prop :=
  NoDup (sectionKeys (tProposalSections d)).

(** What the schema of [saveSection] guarantees about the values it lets
    through. *)
Definition validValues (v : ProposalSections.values) : Prop :=
  ProposalSections.v_content v <> ""
  /\ Js.isInteger (ProposalSections.v_orderIndex v) = true
  /\ Js.gtZero (ProposalSections.v_orderIndex v) = true.

(** A positive integer as the order index. *)
Definition ordered (s : ProposalSections.row) : Prop :=
  Js.isInteger (ProposalSections.orderIndex s) = true
  /\ Js.gtZero (ProposalSections.orderIndex s) = true.

(** Every persisted section has a positive integer as its order index. *)
Definition sectionsOrdered (d : Database) : Prop :=
  Forall ordered (tProposalSections d).

(** Whether the [content] of the raw input is a string that begins with
    U+0000. *)
Definition contentBeginsWithNul (raw : Js.value) : bool :=
  match raw with
  | Js.VObject props =>
      match Js.getProp props "content" with
      | Js.VString t => Sql.startsWithNul t
      | _ => false
      end
  | _ => false
  end.

(** Every section refers to a stored proposal. *)
Definition referencesHold (d : Database) : Prop :=
  Forall (fun s => In (ProposalSections.proposalId s)
                      (map Proposals.id (tProposals d)))
         (tProposalSections d).

(** Every persisted section has a non-empty content and a positive
    integer as its order index. *)
Definition sectionsWellFormed (d : Database) : Prop :=
  Forall (fun s => ProposalSections.content s <> ""
                   /\ Js.isInteger (ProposalSections.orderIndex s) = true
                   /\ Js.gtZero (ProposalSections.orderIndex s) = true)
         (tProposalSections d).

(** The caller is signed in and a stored proposal with id [pid] is his. *)
Definition ownsParent (caller : option App.User) (pid : string) (d : Database)
  : Prop :=
  exists u parent,
    caller = Some u
    /\ In parent (tProposals d)
    /\ Proposals.id parent = pid
    /\ Proposals.userId parent = App.id u.

(** [and(eq(ProposalSections.id, id), eq(ProposalSections.proposalId, pid))] *)
Definition sectionOf (id pid : string) (s : ProposalSections.row) : bool :=
  ProposalSections.idIs id s && String.eqb (ProposalSections.proposalId s) pid.

(** How one operation may change the sections table: not at all, by one
    new row without an id, by assigning to the rows that have a given id,
    or by removing the rows with a given id and parent.  The last three
    happen only under a parent the caller owns. *)
Inductive sectionsStep (caller : option App.User) (w w' : World) : Prop :=
| SectionsSame :
    tProposalSections (db w') = tProposalSections (db w) ->
    sectionsStep caller w w'
| SectionsInsert (s : ProposalSections.row) :
    tProposalSections (db w') = tProposalSections (db w) ++ [s] ->
    ProposalSections.id s = None ->
    ordered s ->
    ownsParent caller (ProposalSections.proposalId s) (db w) ->
    sectionsStep caller w w'
| SectionsUpdate (v : ProposalSections.values) (sid : string)
                 (existing : ProposalSections.row) :
    tProposalSections (db w')
    = map (fun r => if ProposalSections.idIs sid r
                    then ProposalSections.assign v r else r)
          (tProposalSections (db w)) ->
    validValues v ->
    ownsParent caller (ProposalSections.v_proposalId v) (db w) ->
    find (ProposalSections.idIs sid) (tProposalSections (db w)) = Some existing ->
    ProposalSections.proposalId existing = ProposalSections.v_proposalId v ->
    sectionsStep caller w w'
| SectionsDelete (sid pid : string) :
    tProposalSections (db w')
    = filter (fun r => negb (sectionOf sid pid r)) (tProposalSections (db w)) ->
    ownsParent caller pid (db w) ->
    sectionsStep caller w w'.

(** A query that only reads. *)
Definition isSelect (q : Query) : bool :=
  match q with Select _ => true | _ => false end.

(** The operations whose handlers send no statement but SELECT. *)
Definition readOnly (op : Operation) : bool :=
  match op with
  | ListProposals | GetProposalWithSections => true
  | _ => false
  end.

(* ================================================================== *)
(** ** Sample data                                                      *)
(* ================================================================== *)

Module Sample.
Import Js.

Definition runtime : Runtime :=
  {| clock := fun k => (1700000000000 + Z.of_nat k)%Z;
     uuid := fun k => nth k ["3f2b8c1e-0000-4000-8000-000000000001";
                             "3f2b8c1e-0000-4000-8000-000000000002"]
                            "3f2b8c1e-0000-4000-8000-000000000003" |}.

(** A clock that runs backwards. *)
Definition backwards : Runtime :=
  {| clock := fun k => (1700000000000 - Z.of_nat k)%Z;
     uuid := fun _ => "3f2b8c1e-0000-4000-8000-000000000001" |}.

(** 2^53, the least positive integer that is not a safe one. *)
Definition twoTo53 : number := S754_finite false 4503599627370496 1.

Definition userA : App.User := {| App.id := "user-a" |}.
Definition userB : App.User := {| App.id := "user-b" |}.

(** A proposal of user A, as [createProposal] stores it. *)
Definition proposal1 : Proposals.row :=
  {| Proposals.id := "p1";
     Proposals.userId := "user-a";
     Proposals.title := "Website proposal";
     Proposals.clientName := Some "ACME";
     Proposals.projectName := None;
     Proposals.currency := None;
     Proposals.estimatedValue := None;
     Proposals.status := Some "draft";
     Proposals.notes := None;
     Proposals.createdAt := 1600000000000%Z;
     Proposals.updatedAt := 1600000000000%Z |}.

(** A section of that proposal that has an id. *)
Definition section1 : ProposalSections.row :=
  {| ProposalSections.id := Some "s1";
     ProposalSections.proposalId := "p1";
     ProposalSections.type := Some "intro";
     ProposalSections.orderIndex := ofPos 1;
     ProposalSections.heading := Some "Introduction";
     ProposalSections.content := "Intro text";
     ProposalSections.createdAt := 1600000000000%Z |}.

Definition world1 : World :=
  {| db := {| tProposals := [proposal1]; tProposalSections := [section1] |};
     queries := []; dateReads := 0; uuidReads := 0 |}.



(** A section as [saveSection] inserts it: without an id. *)
Definition section2 : ProposalSections.row :=
  {| ProposalSections.id := None;
     ProposalSections.proposalId := "p1";
     ProposalSections.type := None;
     ProposalSections.orderIndex := ofPos 2;
     ProposalSections.heading := None;
     ProposalSections.content := "Scope";
     ProposalSections.createdAt := 1650000000000%Z |}.

(** A proposal of user B. *)
Definition proposal2 : Proposals.row :=
  {| Proposals.id := "p2";
     Proposals.userId := "user-b";
     Proposals.title := "Audit offer";
     Proposals.clientName := None;
     Proposals.projectName := None;
     Proposals.currency := Some "USD";
     Proposals.estimatedValue := None;
     Proposals.status := None;
     Proposals.notes := None;
     Proposals.createdAt := 1650000000000%Z;
     Proposals.updatedAt := 1650000000000%Z |}.

Definition world3 : World :=
  {| db := {| tProposals := [proposal1; proposal2];
              tProposalSections := [section1; section2] |};
     queries := []; dateReads := 0; uuidReads := 0 |}.

End Sample.

(* ================================================================== *)
(** ** Tactics                                                          *)
(* ================================================================== *)

(** Case analysis on the fields a schema parses, in order. *)
Ltac parse_fields :=
  repeat match goal with
         | |- context [match ?x with Some _ => _ | None => None end] =>
             destruct x eqn:?; try discriminate
         end.

(** Unfold an operation down to the world it returns. *)
Ltac run :=
  cbv [call fmap server.createProposal server.updateProposal
       server.listProposals server.deleteProposal server.saveSection
       server.deleteSection server.getProposalWithSections
       handler.createProposal handler.updateProposal handler.listProposals
       handler.deleteProposal handler.saveSection handler.deleteSection
       handler.getProposalWithSections defineAction
       bind ret throw notFound requireUser newDate randomUUID
       Db.selectProposals Db.selectSections Db.insertProposal
       Db.insertSection Db.updateProposals Db.updateSections
       Db.deleteProposals Db.deleteSections Db.logged].

(** Project the fields of the worlds an operation builds. *)
Ltac world :=
  cbn [db queries dateReads uuidReads tProposals tProposalSections].

(** Unfold an operation whose caller is signed in. *)
Ltac run_as :=
  run; cbv [localsUser signedIn locals App.user]; world.

(** Case analysis on every test the unfolded operation performs. *)
Ltac branches :=
  repeat match goal with
         | |- context [match ?x with _ => _ end] =>
             lazymatch x with
             | context [match _ with _ => _ end] => fail
             | _ => destruct x eqn:?
             end
         | |- context [if ?x then _ else _] =>
             lazymatch x with
             | context [match _ with _ => _ end] => fail
             | context [if _ then _ else _] => fail
             | _ => destruct x eqn:?
             end
         end; cbn [fst snd db queries dateReads uuidReads tProposals
                   tProposalSections].

(* ================================================================== *)
(** ** Basic facts                                                      *)
(* ================================================================== *)

Lemma defineAction_parsed {I O} (schema : z.Schema I)
      (h : I -> ActionAPIContext -> Action O) raw i context :
  schema raw = Some i -> defineAction schema h raw context = h i context.
Proof. intros H. unfold defineAction. now rewrite H. Qed.

Lemma defineAction_rejected {I O} (schema : z.Schema I)
      (h : I -> ActionAPIContext -> Action O) raw context rt w :
  schema raw = None ->
  defineAction schema h raw context rt w = (Throw ActionInputError, w).
Proof. intros H. unfold defineAction. now rewrite H. Qed.

Lemma requireUser_anonymous context rt w :
  localsUser context = None ->
  requireUser context rt w = (Throw unauthorized, w).
Proof. intros H. unfold requireUser. now rewrite H. Qed.

Lemma bind_throw {A B} (c : Action A) (k : A -> Action B) e rt w w' :
  c rt w = (Throw e, w') -> bind c k rt w = (Throw e, w').
Proof. intros H. unfold bind. now rewrite H. Qed.

(** A handler that starts with [requireUser] stops there without an
    identity. *)
Lemma handler_anonymous {I O} (schema : z.Schema I)
      (k : I -> App.User -> Action O) raw i context rt w :
  schema raw = Some i ->
  localsUser context = None ->
  defineAction schema
    (fun i context => user <- requireUser context ;; k i user)
    raw context rt w
  = (Throw unauthorized, w).
Proof.
  intros Hp Hu. rewrite (defineAction_parsed _ _ _ _ _ Hp).
  apply bind_throw. now apply requireUser_anonymous.
Qed.

Lemma fmap_throw {A B} (f : A -> B) (c : Action A) e rt w w' :
  c rt w = (Throw e, w') -> fmap f c rt w = (Throw e, w').
Proof. intros H. unfold fmap. now apply bind_throw. Qed.

(** Without an identity an operation ends before its first query: it
    throws [ActionInputError] when the schema rejects the input and
    UNAUTHORIZED otherwise, and the world is the one it started in. *)
Lemma call_anonymous op raw context rt w :
  localsUser context = None ->
  call op raw context rt w
  = (Throw (if accepts op raw then unauthorized else ActionInputError), w).
Proof.
  intros Hu.
  destruct op; unfold call, accepts; apply fmap_throw;
    match goal with
    | |- context [isSome ?p] => destruct p as [i|] eqn:Hp; cbn [isSome]
    end;
    solve
      [ eapply (handler_anonymous _ _ _ _ _ _ _ Hp Hu)
      | apply defineAction_rejected; exact Hp ].
Qed.

(* ================================================================== *)
(** ** The access guard (C5)                                            *)
(* ================================================================== *)

(** C5, as amended.  For each of the seven operations: when the request
    context carries no identity and the input passes the operation's
    schema, the operation throws UNAUTHORIZED, and it does so in the
    world it started in: no query was sent, nothing was read or written.
    (The schema is checked before the handler runs, so an input that
    fails it is answered with the validation error instead, also without
    any query.) *)
Theorem unauthorized_before_any_query op raw context rt w :
  localsUser context = None ->
  accepts op raw = true ->
  call op raw context rt w = (Throw unauthorized, w)
  /\ queries (snd (call op raw context rt w)) = queries w
  /\ db (snd (call op raw context rt w)) = db w.
Proof.
  intros Hu Ha.
  pose proof (call_anonymous op raw context rt w Hu) as H.
  rewrite Ha in H. rewrite H. repeat split.
Qed.

Lemma unauthorized_before_any_query_witness :
  localsUser anonymous = None
  /\ accepts ListProposals Js.VUndefined = true
  /\ call ListProposals Js.VUndefined anonymous Sample.runtime Sample.world1
     = (Throw unauthorized, Sample.world1).
Proof.
  split; [reflexivity | split; [reflexivity |]].
  apply (unauthorized_before_any_query ListProposals Js.VUndefined anonymous
           Sample.runtime Sample.world1); reflexivity.
Defined.

(** C5 as stated fails: [createProposal] called without an identity and
    with an empty title is answered with the validation error, not with
    UNAUTHORIZED. *)
Lemma unauthorized_not_always_first :
  localsUser anonymous = None
  /\ call CreateProposal (Js.VObject [("title", Js.VString "")]) anonymous
          Sample.runtime emptyWorld
     = (Throw ActionInputError, emptyWorld)
  /\ ~ (forall op raw context rt w,
           localsUser context = None ->
           fst (call op raw context rt w) = Throw unauthorized).
Proof.
  split; [reflexivity | split; [reflexivity |]].
  intros H.
  specialize (H CreateProposal (Js.VObject [("title", Js.VString "")]) anonymous
                Sample.runtime emptyWorld eq_refl).
  discriminate H.
Qed.

(* ================================================================== *)
(** ** What the schemas guarantee                                       *)
(* ================================================================== *)

Lemma min1_nonempty v s : z.min 1 z.string v = Some s -> s <> "".
Proof.
  unfold z.min, z.refine, z.string.
  destruct v; try discriminate.
  destruct s0; cbn; [discriminate |].
  intros E; inversion E; subst. discriminate.
Qed.

Lemma min1_empty : z.min 1 z.string (Js.VString "") = None.
Proof. reflexivity. Qed.

Lemma saveSection_parsed raw i :
  input.saveSection raw = Some i ->
  input.ss_content i <> ""
  /\ Js.isInteger (input.ss_orderIndex i) = true
  /\ Js.gtZero (input.ss_orderIndex i) = true.
Proof.
  unfold input.saveSection, z.object, z.field.
  destruct raw; try discriminate. parse_fields.
  intros H; inversion H; subst; cbn.
  split; [eauto using min1_nonempty |].
  match goal with
  | H : z.positive _ _ = Some _ |- _ => revert H
  end.
  unfold z.positive, z.int, z.refine.
  destruct (z.number _) as [m|]; [| discriminate].
  destruct (Js.isInteger m) eqn:Hi; [| discriminate].
  destruct (Js.gtZero m) eqn:Hg; [| discriminate].
  intros E; inversion E; subst. now split.
Qed.

Lemma integer_finite n : Js.isInteger n = true -> Sql.finite n = true.
Proof. now destruct n. Qed.

Lemma positive_number n : Js.gtZero n = true -> Sql.number n = n.
Proof. now destruct n. Qed.

Lemma existsb_id_true l (p : Proposals.row) x :
  In p l -> Proposals.id p = x ->
  existsb (fun r => String.eqb (Proposals.id r) x) l = true.
Proof.
  intros Hin E. apply existsb_exists. exists p. split; [exact Hin |].
  now apply String.eqb_eq.
Qed.

Lemma createProposal_rejects_empty_title props :
  Js.getProp props "title" = Js.VString "" ->
  input.createProposal (Js.VObject props) = None.
Proof.
  intros Ht. unfold input.createProposal, z.object, z.field.
  rewrite Ht, min1_empty. now destruct (z.optional z.string _).
Qed.

Lemma updateProposal_rejects_empty_title props :
  Js.getProp props "title" = Js.VString "" ->
  input.updateProposal (Js.VObject props) = None.
Proof.
  intros Ht. unfold input.updateProposal, z.object, z.field.
  rewrite Ht. cbn. now destruct (z.string _).
Qed.

(* ================================================================== *)
(** ** Every operation is a step                                        *)
(* ================================================================== *)

Lemma existsb_id_false l x :
  existsb (fun p => String.eqb (Proposals.id p) x) l = false ->
  ~ In x (map Proposals.id l).
Proof.
  induction l as [|p l IH]; cbn; [tauto |].
  intros H. apply orb_false_iff in H. destruct H as [Hp Hl].
  intros [E | I]; [| now apply IH].
  apply String.eqb_neq in Hp. congruence.
Qed.

Lemma call_step op raw context rt w :
  proposalsStep rt w (snd (call op raw context rt w)).
Proof.
  destruct op; run.
  all: branches.
  all: try (apply StepSame; cbn; [reflexivity | lia]).
  all: try (eapply StepInsert; cbn; try reflexivity;
            match goal with
            | H : existsb _ _ = false |- _ =>
                cbn in H; now apply existsb_id_false
            end).
  all: try (eapply StepUpdate; cbn; reflexivity).
  all: eapply StepDelete; cbn; reflexivity.
Qed.

(* ================================================================== *)
(** ** The invariants are kept by every step                            *)
(* ================================================================== *)

Lemma map_id_assign c (where_ : Proposals.row -> bool) l :
  map Proposals.id
      (map (fun r => if where_ r then Proposals.assign c r else r) l)
  = map Proposals.id l.
Proof.
  rewrite map_map. apply map_ext. intros r. now destruct (where_ r).
Qed.

Lemma NoDup_map_filter {A B} (f : A -> B) (keep : A -> bool) l :
  NoDup (map f l) -> NoDup (map f (filter keep l)).
Proof.
  induction l as [|a l IH]; cbn; [auto |].
  intros H. inversion H as [|x xs Hn Hd]; subst.
  destruct (keep a); cbn; [constructor |]; auto.
  intros Hin. apply Hn. apply in_map_iff in Hin.
  destruct Hin as [b [Hb Hin]]. apply filter_In in Hin.
  apply in_map_iff. exists b. tauto.
Qed.

Lemma step_keysUnique rt w w' :
  proposalsStep rt w w' -> keysUnique (db w) -> keysUnique (db w').
Proof.
  unfold keysUnique.
  intros [E _ | r E Hn _ _ | c f E _ _ | keep E _] H; rewrite E.
  - exact H.
  - rewrite map_app. cbn.
    apply NoDup_app; [exact H | repeat constructor; intros [] | ].
    intros a Ha [<- | []]. contradiction.
  - now rewrite map_id_assign.
  - now apply NoDup_map_filter.
Qed.

Lemma monotone_le rt a b : monotone rt -> a <= b -> (clock rt a <= clock rt b)%Z.
Proof.
  intros Hm Hab. induction Hab as [|b Hab IH]; [lia |].
  specialize (Hm b). lia.
Qed.

Lemma step_notAhead rt w w' :
  monotone rt -> proposalsStep rt w w' -> notAhead rt w -> notAhead rt w'.
Proof.
  unfold notAhead.
  intros Hm [E Hd | r E _ Hu Hd | c f E Hu Hd | keep E Hd] H; rewrite E.
  - eapply Forall_impl; [| exact H]. intros p Hp.
    pose proof (monotone_le rt _ _ Hm Hd). cbn beta in *. lia.
  - rewrite Hd. apply Forall_app. split.
    + eapply Forall_impl; [| exact H]. intros p Hp. cbn beta in *.
      pose proof (Hm (dateReads w)). pose proof (Hm (S (dateReads w))). lia.
    + repeat constructor. rewrite Hu. apply Hm.
  - rewrite Hd. apply Forall_map. eapply Forall_impl; [| exact H].
    intros r Hr. cbn beta in *. pose proof (Hm (dateReads w)).
    destruct (f r); [| lia]. cbn. rewrite Hu. cbn. lia.
  - rewrite Hd. apply Forall_forall. intros p Hp. apply filter_In in Hp.
    rewrite Forall_forall in H. now apply H.
Qed.

(** The two invariants hold in the empty database and after every
    operation, whatever its input, its caller and its outcome. *)
Lemma call_keysUnique op raw context rt w :
  keysUnique (db w) -> keysUnique (db (snd (call op raw context rt w))).
Proof. apply step_keysUnique with (rt := rt). apply call_step. Qed.

Lemma call_notAhead op raw context rt w :
  monotone rt -> notAhead rt w ->
  notAhead rt (snd (call op raw context rt w)).
Proof. intros Hm. apply step_notAhead; [exact Hm | apply call_step]. Qed.

Lemma empty_invariants rt :
  keysUnique (db emptyWorld) /\ notAhead rt emptyWorld.
Proof. repeat split; constructor. Qed.

Lemma reachable_invariants rt w :
  monotone rt -> reachable rt w ->
  keysUnique (db w) /\ notAhead rt w.
Proof.
  intros Hm Hr. induction Hr as [|op raw context w Hr [Hk Ha]].
  - apply empty_invariants.
  - split; [now apply call_keysUnique | now apply call_notAhead].
Qed.

(* ================================================================== *)
(** ** Validation (C9, C10)                                             *)
(* ================================================================== *)

Lemma orderIndex_rejected n :
  Js.isZero n = true \/ Js.ltZero n = true \/ Js.isInteger n = false ->
  z.positive (z.int z.number) (Js.VNumber n) = None.
Proof.
  unfold z.positive, z.int, z.refine, z.number.
  intros H.
  destruct (Js.isNaN n); [reflexivity |].
  destruct (Js.isInteger n) eqn:Hi; [| reflexivity].
  destruct H as [H | [H | H]]; [| | congruence];
    destruct n as [s | s | | s m e]; try discriminate H;
    destruct s; try discriminate H; reflexivity.
Qed.

Lemma saveSection_rejects props :
  (exists n, Js.getProp props "orderIndex" = Js.VNumber n
             /\ (Js.isZero n = true \/ Js.ltZero n = true
                 \/ Js.isInteger n = false))
  \/ Js.getProp props "content" = Js.VString "" ->
  input.saveSection (Js.VObject props) = None.
Proof.
  intros H. unfold input.saveSection, z.object, z.field.
  destruct (z.optional z.string (Js.getProp props "id")); [| reflexivity].
  destruct (z.string (Js.getProp props "proposalId")); [| reflexivity].
  destruct (z.optional z.string (Js.getProp props "type")); [| reflexivity].
  destruct H as [[n [Hn Hbad]] | Hc].
  - rewrite Hn, (orderIndex_rejected n Hbad). reflexivity.
  - destruct (z.positive _ _); [| reflexivity].
    destruct (z.optional z.string (Js.getProp props "heading")); [| reflexivity].
    now rewrite Hc, min1_empty.
Qed.

Lemma min1_accepts c : c <> "" -> z.min 1 z.string (Js.VString c) = Some c.
Proof. destruct c; [congruence | reflexivity]. Qed.

(** C9.  A [saveSection] call whose [orderIndex] is zero, negative or not
    an integer, or whose [content] is the empty string, is answered with
    the validation error in the world it started in: no query was sent.
    A call with [orderIndex] 1 and a non-empty [content] (a string
    [proposalId], and [id], [type] and [heading] absent or strings)
    passes the schema. *)
Theorem saveSection_validation :
  (forall props context rt w,
      (exists n, Js.getProp props "orderIndex" = Js.VNumber n
                 /\ (Js.isZero n = true \/ Js.ltZero n = true
                     \/ Js.isInteger n = false))
      \/ Js.getProp props "content" = Js.VString "" ->
      server.saveSection (Js.VObject props) context rt w
      = (Throw ActionInputError, w))
  /\ (forall props pid c i t h,
         Js.getProp props "orderIndex" = Js.VNumber (Js.ofPos 1) ->
         Js.getProp props "content" = Js.VString c -> c <> "" ->
         Js.getProp props "proposalId" = Js.VString pid ->
         z.optional z.string (Js.getProp props "id") = Some i ->
         z.optional z.string (Js.getProp props "type") = Some t ->
         z.optional z.string (Js.getProp props "heading") = Some h ->
         input.saveSection (Js.VObject props)
         = Some {| input.ss_id := i; input.ss_proposalId := pid;
                   input.ss_type := t; input.ss_orderIndex := Js.ofPos 1;
                   input.ss_heading := h; input.ss_content := c |}).
Proof.
  split.
  - intros props context rt w H.
    apply defineAction_rejected. now apply saveSection_rejects.
  - intros props pid c i t h Ho Hc Hne Hp Hi Ht Hh.
    unfold input.saveSection, z.object, z.field.
    rewrite Hi, Hp, Ht, Ho, Hh, Hc, (min1_accepts c Hne). reflexivity.
Qed.

Lemma saveSection_validation_witness :
  server.saveSection
    (Js.VObject [("proposalId", Js.VString "p1");
                 ("orderIndex", Js.VNumber (S754_finite false 3 (-1)));
                 ("content", Js.VString "Intro text")])
    (signedIn Sample.userA) Sample.runtime Sample.world1
  = (Throw ActionInputError, Sample.world1)
  /\ input.saveSection
       (Js.VObject [("proposalId", Js.VString "p1");
                    ("orderIndex", Js.VNumber (Js.ofPos 1));
                    ("content", Js.VString "Intro text")])
     = Some {| input.ss_id := None; input.ss_proposalId := "p1";
               input.ss_type := None; input.ss_orderIndex := Js.ofPos 1;
               input.ss_heading := None; input.ss_content := "Intro text" |}.
Proof.
  split.
  - apply (proj1 saveSection_validation).
    left. exists (S754_finite false 3 (-1)). split; [reflexivity |].
    right; right. reflexivity.
  - apply (proj2 saveSection_validation); try reflexivity. discriminate.
Defined.

Lemma text_nonempty t :
  t <> "" -> Sql.startsWithNul t = false -> Sql.text t <> "".
Proof.
  destruct t as [|c t]; [congruence |]. cbn. intros _ ->. discriminate.
Qed.

Lemma min1_string v s :
  z.min 1 z.string v = Some s -> v = Js.VString s /\ s <> "".
Proof.
  intros H. split; [| exact (min1_nonempty _ _ H)].
  unfold z.min, z.refine, z.string in H.
  destruct v; try discriminate.
  destruct s0; cbn in H; [discriminate |]. now inversion H.
Qed.

Lemma createProposal_stored_title raw i :
  input.createProposal raw = Some i ->
  titleBeginsWithNul raw = false ->
  Sql.text (input.cp_title i) <> "".
Proof.
  unfold input.createProposal, z.object, z.field, titleBeginsWithNul.
  destruct raw; try discriminate. parse_fields.
  intros H; inversion H; subst; cbn [input.cp_title].
  match goal with
  | Hm : z.min 1 z.string _ = Some _ |- _ =>
      apply min1_string in Hm; destruct Hm as [-> Hne]
  end.
  now apply text_nonempty.
Qed.

Lemma optional_min1_string v t :
  z.optional (z.min 1 z.string) v = Some (Some t) ->
  v = Js.VString t /\ t <> "".
Proof.
  unfold z.optional. intros H.
  destruct v; try (cbn in H; discriminate H).
  destruct (z.min 1 z.string (Js.VString s)) eqn:Hm; cbn in H; [| discriminate].
  inversion H; subst. now apply min1_string in Hm.
Qed.

Lemma updateProposal_stored_title raw i :
  input.updateProposal raw = Some i ->
  titleBeginsWithNul raw = false ->
  option_map Sql.text (input.title (input.rest i)) <> Some "".
Proof.
  unfold input.updateProposal, z.object, z.field, titleBeginsWithNul.
  destruct raw; try discriminate. parse_fields.
  intros H; inversion H; subst; cbn [input.rest input.title].
  match goal with
  | Hm : z.optional (z.min 1 z.string) _ = Some ?o |- _ =>
      destruct o as [t|]; [| discriminate];
      apply optional_min1_string in Hm; destruct Hm as [-> Hne]
  end.
  cbn [option_map]. intros Hs F. inversion F as [Ft].
  revert Ft. now apply text_nonempty.
Qed.

Lemma titles_insert l r :
  Forall (fun p => Proposals.title p <> "") l ->
  Proposals.title r <> "" ->
  Forall (fun p => Proposals.title p <> "") (l ++ [r]).
Proof. intros H Hr. apply Forall_app. split; [exact H | now repeat constructor]. Qed.

Lemma titles_update c (where_ : Proposals.row -> bool) l :
  Forall (fun p => Proposals.title p <> "") l ->
  Proposals.set_title c <> Some "" ->
  Forall (fun p => Proposals.title p <> "")
         (map (fun r => if where_ r then Proposals.assign c r else r) l).
Proof.
  intros H Ht. apply Forall_map. eapply Forall_impl; [| exact H].
  intros r Hr. cbn beta. destruct (where_ r); [| exact Hr].
  cbn. destruct (Proposals.set_title c) as [t|]; cbn; [| exact Hr].
  intros ->. now apply Ht.
Qed.

Lemma titles_filter (keep : Proposals.row -> bool) l :
  Forall (fun p => Proposals.title p <> "") l ->
  Forall (fun p => Proposals.title p <> "") (filter keep l).
Proof.
  intros H. apply Forall_forall. intros p Hp. apply filter_In in Hp.
  rewrite Forall_forall in H. now apply H.
Qed.

(** Every operation keeps the titles non-empty when the [title] of its
    input does not begin with U+0000. *)
Lemma call_titlesNonEmpty op raw context rt w :
  titleBeginsWithNul raw = false ->
  titlesNonEmpty (db w) ->
  titlesNonEmpty (db (snd (call op raw context rt w))).
Proof.
  unfold titlesNonEmpty. intros Hn H.
  destruct op; run.
  all: branches; try exact H.
  all: try (apply titles_insert; [exact H |]; cbn [Proposals.stored Proposals.title];
            eauto using createProposal_stored_title).
  all: try (apply titles_update; [exact H |];
            cbv [Proposals.storedChanges withUpdatedAt Proposals.set_title];
            eauto using updateProposal_stored_title).
  all: now apply titles_filter.
Qed.

(** C10, as amended.  [createProposal] and [updateProposal] answer an
    input whose [title] is the empty string with the validation error, in
    the world they started in (no query was sent).  Every operation whose
    input has no [title] that begins with U+0000 keeps the invariant that
    each persisted proposal has a non-empty title.  (The schema counts
    the characters of the title it is given; the table hands a title back
    only up to its first U+0000.) *)
Theorem titles_stay_nonempty op raw props context rt w :
  titlesNonEmpty (db w) ->
  titleBeginsWithNul raw = false ->
  Js.getProp props "title" = Js.VString "" ->
  titlesNonEmpty (db (snd (call op raw context rt w)))
  /\ server.createProposal (Js.VObject props) context rt w
     = (Throw ActionInputError, w)
  /\ server.updateProposal (Js.VObject props) context rt w
     = (Throw ActionInputError, w).
Proof.
  intros Hinv Hn Ht. split; [now apply call_titlesNonEmpty | split].
  - apply defineAction_rejected. now apply createProposal_rejects_empty_title.
  - apply defineAction_rejected. now apply updateProposal_rejects_empty_title.
Qed.

Lemma titles_stay_nonempty_witness :
  titlesNonEmpty (db Sample.world1)
  /\ titlesNonEmpty
       (db (snd (call UpdateProposal
                      (Js.VObject [("id", Js.VString "p1");
                                   ("title", Js.VString "Renamed")])
                      (signedIn Sample.userA) Sample.runtime Sample.world1)))
  /\ server.updateProposal
       (Js.VObject [("id", Js.VString "p1"); ("title", Js.VString "")])
       (signedIn Sample.userA) Sample.runtime Sample.world1
     = (Throw ActionInputError, Sample.world1).
Proof.
  assert (H1 : titlesNonEmpty (db Sample.world1))
    by (repeat constructor; discriminate).
  split; [exact H1 |].
  pose proof (titles_stay_nonempty UpdateProposal
                (Js.VObject [("id", Js.VString "p1");
                             ("title", Js.VString "Renamed")])
                [("id", Js.VString "p1"); ("title", Js.VString "")]
                (signedIn Sample.userA) Sample.runtime Sample.world1
                H1 eq_refl eq_refl) as [Ha [_ Hc]].
  split; assumption.
Defined.

(** C10 as stated fails: a title that begins with U+0000 has one
    character or more, so [createProposal] lets it through, and the
    proposal it stores has the empty title. *)
Lemma title_stored_empty :
  titlesNonEmpty (db emptyWorld)
  /\ (exists p w',
         call CreateProposal
              (Js.VObject [("id", Js.VString "p0");
                           ("title", Js.VString (String Ascii.zero "x"))])
              (signedIn Sample.userA) Sample.runtime emptyWorld
         = (Return (OProposal (Some p)), w')
         /\ Proposals.title p = ""
         /\ tProposals (db w') = [p])
  /\ ~ (forall op raw context rt w,
           titlesNonEmpty (db w) ->
           titlesNonEmpty (db (snd (call op raw context rt w)))).
Proof.
  split; [constructor | split].
  - eexists. eexists. split; [reflexivity | split; reflexivity].
  - intros H.
    specialize (H CreateProposal
                  (Js.VObject [("id", Js.VString "p0");
                               ("title", Js.VString (String Ascii.zero "x"))])
                  (signedIn Sample.userA) Sample.runtime emptyWorld
                  (Forall_nil _)).
    vm_compute in H. inversion H as [|p l Hp Hl]. now apply Hp.
Qed.

(* ================================================================== *)
(** ** Looking a proposal up by key and owner                           *)
(* ================================================================== *)

Lemma filter_absent_key (f : Proposals.row -> bool) x l :
  ~ In x (map Proposals.id l) ->
  filter (fun r => String.eqb (Proposals.id r) x && f r) l = [].
Proof.
  induction l as [|a l IH]; cbn; [reflexivity |].
  intros H. destruct (String.eqb_spec (Proposals.id a) x) as [E | N]; cbn.
  - exfalso. apply H. now left.
  - apply IH. intros I. apply H. now right.
Qed.

Lemma filter_key (f : Proposals.row -> bool) p l :
  NoDup (map Proposals.id l) -> In p l ->
  filter (fun r => String.eqb (Proposals.id r) (Proposals.id p) && f r) l
  = if f p then [p] else [].
Proof.
  induction l as [|a l IH]; cbn; [tauto |].
  intros Hnd Hin. inversion Hnd as [|x xs Hn Hd]; subst.
  destruct Hin as [-> | Hin].
  - rewrite String.eqb_refl. cbn.
    rewrite (filter_absent_key f (Proposals.id p) l Hn).
    now destruct (f p).
  - destruct (String.eqb_spec (Proposals.id a) (Proposals.id p)) as [E | N]; cbn.
    + exfalso. apply Hn. rewrite E. now apply in_map.
    + now apply IH.
Qed.

(** The rows [ownedBy id user] selects, when [p] is the row with key [id]. *)
Lemma owned_rows p user l :
  NoDup (map Proposals.id l) -> In p l ->
  filter (ownedBy (Proposals.id p) user) l
  = if String.eqb (Proposals.userId p) (App.id user) then [p] else [].
Proof.
  intros Hnd Hin.
  exact (filter_key (fun r => String.eqb (Proposals.userId r) (App.id user))
                    p l Hnd Hin).
Qed.

Lemma owned_rows_owner p user l :
  NoDup (map Proposals.id l) -> In p l ->
  Proposals.userId p = App.id user ->
  filter (ownedBy (Proposals.id p) user) l = [p].
Proof.
  intros Hnd Hin Hu. rewrite (owned_rows p user l Hnd Hin), Hu.
  now rewrite String.eqb_refl.
Qed.


Lemma filter_none_negb {A} (f : A -> bool) l :
  filter f l = [] -> filter (fun r => negb (f r)) l = l.
Proof.
  induction l as [|a l IH]; cbn; [reflexivity |].
  destruct (f a); [discriminate |]. cbn. intros H. now rewrite IH.
Qed.


(* ================================================================== *)
(** ** Ownership (C1)                                                   *)
(* ================================================================== *)



(* ================================================================== *)
(** ** Partial update (C3, C4)                                          *)
(* ================================================================== *)

Lemma updateDataKeys_noFields r :
  updateDataKeys r = [] <-> r = noFields.
Proof.
  split.
  - destruct r as [[t|] [c|] [p|] [cu|] [e|] [s|] [n|]];
      cbn; intros H; try discriminate H; reflexivity.
  - intros ->. reflexivity.
Qed.

Lemma updateDataKeys_some r :
  r <> noFields -> Nat.eqb (List.length (updateDataKeys r)) 0 = false.
Proof.
  intros H. destruct (updateDataKeys r) eqn:E; [| reflexivity].
  apply updateDataKeys_noFields in E. contradiction.
Qed.

Lemma key_determines_row (p r : Proposals.row) l :
  NoDup (map Proposals.id l) -> In p l -> In r l ->
  Proposals.id r = Proposals.id p -> r = p.
Proof.
  induction l as [|a l IH]; cbn; [tauto |].
  intros Hnd Hp Hr E. inversion Hnd as [|x xs Hn Hd]; subst.
  destruct Hp as [-> | Hp], Hr as [-> | Hr]; auto.
  - exfalso. apply Hn. rewrite <- E. now apply in_map.
  - exfalso. apply Hn. rewrite E. now apply in_map.
Qed.

Lemma ownedBy_is_key p user l r :
  NoDup (map Proposals.id l) -> In p l ->
  Proposals.userId p = App.id user -> In r l ->
  ownedBy (Proposals.id p) user r
  = String.eqb (Proposals.id r) (Proposals.id p).
Proof.
  intros Hnd Hp Hu Hr. unfold ownedBy.
  destruct (String.eqb_spec (Proposals.id r) (Proposals.id p)) as [E | N];
    [| reflexivity].
  rewrite (key_determines_row p r l Hnd Hp Hr E), Hu.
  now rewrite String.eqb_refl.
Qed.



Lemma unsafe_number n : Sql.unsafe (Sql.number n) = Sql.unsafe n.
Proof. now destruct n. Qed.

Lemma readable_stored o :
  Sql.readable (option_map Sql.number o) = Sql.readable o.
Proof. destruct o as [n|]; [| reflexivity]. cbn. now rewrite unsafe_number. Qed.

Lemma map_at_key p q user l :
  NoDup (map Proposals.id l) -> In p l ->
  Proposals.userId p = App.id user ->
  map (fun r => if ownedBy (Proposals.id p) user r then q r else r) l
  = map (fun r => if String.eqb (Proposals.id r) (Proposals.id p)
                  then q p else r) l.
Proof.
  intros Hk Hin Hu. apply map_ext_in. intros r Hr.
  rewrite (ownedBy_is_key p user _ r Hk Hin Hu Hr).
  destruct (String.eqb_spec (Proposals.id r) (Proposals.id p)) as [E | N];
    [| reflexivity].
  now rewrite (key_determines_row p r _ Hk Hin Hr E).
Qed.

(** What [updateProposal] does for the owner of [p] with one property or
    more: the SELECT, one reading of the clock, and the UPDATE unless the
    client refuses the number; the row is returned unless the client
    cannot read it back. *)
Lemma updateProposal_run raw i u p rt w :
  input.updateProposal raw = Some i ->
  input.rest i <> noFields ->
  keysUnique (db w) ->
  In p (tProposals (db w)) ->
  input.up_id i = Proposals.id p ->
  Proposals.userId p = App.id u ->
  let c := Proposals.storedChanges
             (withUpdatedAt (input.rest i) (clock rt (dateReads w))) in
  let read := {| db := db w; queries := queries w ++ [Select TProposals];
                 dateReads := S (dateReads w); uuidReads := uuidReads w |} in
  let written :=
    {| db := {| tProposals :=
                  map (fun r => if String.eqb (Proposals.id r) (Proposals.id p)
                                then Proposals.assign c p else r)
                      (tProposals (db w));
                tProposalSections := tProposalSections (db w) |};
       queries := (queries w ++ [Select TProposals]) ++ [Update TProposals];
       dateReads := S (dateReads w); uuidReads := uuidReads w |} in
  server.updateProposal raw (signedIn u) rt w
  = if negb (Sql.bindable (input.estimatedValue (input.rest i)))
    then (Throw RangeError, read)
    else if Proposals.readable (Proposals.assign c p)
         then (Return (Some (Proposals.assign c p)), written)
         else (Throw RangeError, written).
Proof.
  intros Hp Hrest Hk Hin Hid Hu c read written.
  unfold server.updateProposal.
  rewrite (defineAction_parsed _ _ _ _ _ Hp). run_as.
  rewrite Hid, (owned_rows_owner p u _ Hk Hin Hu).
  rewrite (updateDataKeys_some _ Hrest). cbn [hd_error firstn Db.limited].
  cbv [Db.limited]. cbn [firstn hd_error].
  change (Proposals.set_estimatedValue (withUpdatedAt (input.rest i) _))
    with (input.estimatedValue (input.rest i)).
  destruct (negb (Sql.bindable _)); [reflexivity |].
  world. rewrite (owned_rows_owner p u _ Hk Hin Hu). fold c.
  rewrite (map_at_key p (Proposals.assign c) u _ Hk Hin Hu).
  cbn [map forallb]. rewrite andb_true_r.
  destruct (Proposals.readable _); reflexivity.
Qed.

(** C4, as amended.  The owner of a stored proposal [p] calls
    [updateProposal] with at least one mutable property; [p] reads back
    as it is, and the [estimatedValue] of the input, when there is one,
    is finite and no unsafe integer.  Then the call returns the row [p]
    with the supplied properties replaced (a text by its part before the
    first U+0000, the number by what the column holds), [updatedAt] set
    to the reading of the clock and [id], [userId], [createdAt] and the
    omitted properties as they were; that row takes [p]'s place in the
    table and no other row and no section changes.  When the clock does
    not run backwards and the world is one the operations can bring
    about, the new [updatedAt] is not before the old one. *)
Theorem update_with_fields raw i u p rt w :
  input.updateProposal raw = Some i ->
  input.rest i <> noFields ->
  keysUnique (db w) ->
  In p (tProposals (db w)) ->
  input.up_id i = Proposals.id p ->
  Proposals.userId p = App.id u ->
  readsBack p ->
  Sql.bindable (input.estimatedValue (input.rest i)) = true ->
  Sql.readable (input.estimatedValue (input.rest i)) = true ->
  let now := clock rt (dateReads w) in
  let p' :=
    {| Proposals.id := Proposals.id p;
       Proposals.userId := Proposals.userId p;
       Proposals.title :=
         match input.title (input.rest i) with
         | Some t => Sql.text t
         | None => Proposals.title p
         end;
       Proposals.clientName :=
         match input.clientName (input.rest i) with
         | Some v => Some (Sql.text v)
         | None => Proposals.clientName p
         end;
       Proposals.projectName :=
         match input.projectName (input.rest i) with
         | Some v => Some (Sql.text v)
         | None => Proposals.projectName p
         end;
       Proposals.currency :=
         match input.currency (input.rest i) with
         | Some v => Some (Sql.text v)
         | None => Proposals.currency p
         end;
       Proposals.estimatedValue :=
         match input.estimatedValue (input.rest i) with
         | Some v => Some (Sql.number v)
         | None => Proposals.estimatedValue p
         end;
       Proposals.status :=
         match input.status (input.rest i) with
         | Some v => Some (Sql.text v)
         | None => Proposals.status p
         end;
       Proposals.notes :=
         match input.notes (input.rest i) with
         | Some v => Some (Sql.text v)
         | None => Proposals.notes p
         end;
       Proposals.createdAt := Proposals.createdAt p;
       Proposals.updatedAt := now |} in
  exists w',
    server.updateProposal raw (signedIn u) rt w = (Return (Some p'), w')
    /\ tProposals (db w')
       = map (fun r => if String.eqb (Proposals.id r) (Proposals.id p)
                       then p' else r)
             (tProposals (db w))
    /\ tProposalSections (db w') = tProposalSections (db w)
    /\ (monotone rt -> reachable rt w ->
        (Proposals.updatedAt p <= Proposals.updatedAt p')%Z).
Proof.
  intros Hp Hrest Hk Hin Hid Hu [_ [_ [_ Hread]]] Hb Hs now p'.
  rewrite (updateProposal_run raw i u p rt w Hp Hrest Hk Hin Hid Hu).
  rewrite Hb. cbn [negb].
  set (c := Proposals.storedChanges _).
  assert (E : Proposals.assign c p = p').
  { subst c p' now.
    cbv [Proposals.assign Proposals.storedChanges withUpdatedAt
         Proposals.orElse Proposals.orKeep Proposals.set_title
         Proposals.set_clientName Proposals.set_projectName
         Proposals.set_currency Proposals.set_estimatedValue
         Proposals.set_status Proposals.set_notes Proposals.set_updatedAt
         option_map].
    destruct (input.title (input.rest i)), (input.clientName (input.rest i)),
      (input.projectName (input.rest i)), (input.currency (input.rest i)),
      (input.estimatedValue (input.rest i)), (input.status (input.rest i)),
      (input.notes (input.rest i)); reflexivity. }
  rewrite E.
  assert (R : Proposals.readable p' = true).
  { subst p'. unfold Proposals.readable. cbn [Proposals.estimatedValue].
    destruct (input.estimatedValue (input.rest i)) as [v|]; [| exact Hread].
    cbn in Hs |- *. now rewrite unsafe_number. }
  rewrite R. eexists. split; [reflexivity |]. cbn. repeat split.
  intros Hm Hr. destruct (reachable_invariants rt w Hm Hr) as [_ Ha].
  unfold notAhead in Ha. rewrite Forall_forall in Ha. exact (Ha p Hin).
Qed.

Lemma sample_monotone : monotone Sample.runtime.
Proof. intros k. unfold Sample.runtime. cbn [clock]. lia. Qed.

Lemma sample_keysUnique : keysUnique (db Sample.world1).
Proof. repeat constructor. intros []. Qed.

Lemma sample_readsBack : readsBack Sample.proposal1.
Proof. repeat split. Qed.

Lemma update_with_fields_witness :
  let w := snd (call CreateProposal
                     (Js.VObject [("id", Js.VString "p1");
                                  ("title", Js.VString "Website proposal")])
                     (signedIn Sample.userA) Sample.runtime emptyWorld) in
  let p := {| Proposals.id := "p1";
              Proposals.userId := "user-a";
              Proposals.title := "Website proposal";
              Proposals.clientName := None;
              Proposals.projectName := None;
              Proposals.currency := None;
              Proposals.estimatedValue := None;
              Proposals.status := None;
              Proposals.notes := None;
              Proposals.createdAt := 1700000000000%Z;
              Proposals.updatedAt := 1700000000001%Z |} in
  monotone Sample.runtime
  /\ reachable Sample.runtime w
  /\ tProposals (db w) = [p]
  /\ readsBack p
  /\ exists w',
      server.updateProposal
        (Js.VObject [("id", Js.VString "p1"); ("title", Js.VString "Renamed");
                     ("status", Js.VString "sent")])
        (signedIn Sample.userA) Sample.runtime w
      = (Return
           (Some {| Proposals.id := "p1";
                    Proposals.userId := "user-a";
                    Proposals.title := "Renamed";
                    Proposals.clientName := None;
                    Proposals.projectName := None;
                    Proposals.currency := None;
                    Proposals.estimatedValue := None;
                    Proposals.status := Some "sent";
                    Proposals.notes := None;
                    Proposals.createdAt := 1700000000000%Z;
                    Proposals.updatedAt := 1700000000002%Z |}), w')
      /\ tProposalSections (db w') = tProposalSections (db w)
      /\ (Proposals.updatedAt p <= 1700000000002)%Z.
Proof.
  intros w p.
  assert (Hr : reachable Sample.runtime w)
    by (apply ReachCall; apply ReachEmpty).
  assert (Hb : readsBack p) by (repeat split).
  assert (Hk : keysUnique (db w)) by (repeat constructor; intros []).
  split; [exact sample_monotone |].
  split; [exact Hr |].
  split; [reflexivity |].
  split; [exact Hb |].
  destruct (update_with_fields
              (Js.VObject [("id", Js.VString "p1");
                           ("title", Js.VString "Renamed");
                           ("status", Js.VString "sent")])
              {| input.up_id := "p1";
                 input.rest :=
                   {| input.title := Some "Renamed";
                      input.clientName := None;
                      input.projectName := None; input.currency := None;
                      input.estimatedValue := None;
                      input.status := Some "sent"; input.notes := None |} |}
              Sample.userA p Sample.runtime w
              eq_refl ltac:(discriminate) Hk
              (or_introl eq_refl) eq_refl eq_refl Hb eq_refl eq_refl)
    as [w' [H1 [_ [H3 H4]]]].
  exists w'. split; [exact H1 | split; [exact H3 |]].
  exact (H4 sample_monotone Hr).
Defined.

(** C4 as stated fails, in two ways.  With [estimatedValue] 2^53 the
    UPDATE is applied and the call then throws instead of returning the
    record: the client cannot hand the stored integer back.  And under a
    clock that runs backwards, in a world the operations bring about, the
    new [updatedAt] is before the old one. *)
Lemma update_with_fields_fails :
  (exists w',
      server.updateProposal
        (Js.VObject [("id", Js.VString "p1");
                     ("estimatedValue", Js.VNumber Sample.twoTo53)])
        (signedIn Sample.userA) Sample.runtime Sample.world1
      = (Throw RangeError, w')
      /\ map Proposals.estimatedValue (tProposals (db w'))
         = [Some Sample.twoTo53]
      /\ map Proposals.updatedAt (tProposals (db w')) = [1700000000000%Z])
  /\ (exists w p p' w',
         reachable Sample.backwards w
         /\ tProposals (db w) = [p]
         /\ Proposals.userId p = App.id Sample.userA
         /\ server.updateProposal
              (Js.VObject [("id", Js.VString "p0");
                           ("status", Js.VString "sent")])
              (signedIn Sample.userA) Sample.backwards w
            = (Return (Some p'), w')
         /\ Proposals.updatedAt p = 1699999999999%Z
         /\ Proposals.updatedAt p' = 1699999999998%Z).
Proof.
  split.
  - eexists. split; [reflexivity | split; reflexivity].
  - exists (snd (call CreateProposal
                      (Js.VObject [("id", Js.VString "p0");
                                   ("title", Js.VString "Website proposal")])
                      (signedIn Sample.userA) Sample.backwards emptyWorld)).
    eexists. eexists. eexists.
    split; [apply ReachCall; apply ReachEmpty |].
    split; [reflexivity |].
    split; [reflexivity |].
    split; [reflexivity |].
    split; reflexivity.
Qed.

(* ================================================================== *)
(** ** Deleting a proposal (C6)                                         *)
(* ================================================================== *)

Lemma filter_not_key p user l :
  NoDup (map Proposals.id l) -> In p l ->
  Proposals.userId p = App.id user ->
  filter (fun r => negb (ownedBy (Proposals.id p) user r)) l
  = filter (fun r => negb (String.eqb (Proposals.id r) (Proposals.id p))) l.
Proof.
  intros Hnd Hp Hu. apply filter_ext_in. intros r Hr.
  now rewrite (ownedBy_is_key p user l r Hnd Hp Hu Hr).
Qed.

(** What [deleteProposal] does for the owner of [p]: one DELETE, which
    the database refuses when a section refers to [p]; the removed row is
    returned unless the client cannot read it back. *)
Lemma deleteProposal_run raw i u p rt w :
  input.deleteProposal raw = Some i ->
  keysUnique (db w) ->
  In p (tProposals (db w)) ->
  input.id i = Proposals.id p ->
  Proposals.userId p = App.id u ->
  let removed :=
    {| db := {| tProposals :=
                  filter (fun r => negb (String.eqb (Proposals.id r)
                                                    (Proposals.id p)))
                         (tProposals (db w));
                tProposalSections := tProposalSections (db w) |};
       queries := queries w ++ [Delete TProposals];
       dateReads := dateReads w; uuidReads := uuidReads w |} in
  server.deleteProposal raw (signedIn u) rt w
  = if Db.referenced (tProposalSections (db w)) p
    then (Throw ForeignKeyError, Db.logged (Delete TProposals) (db w) w)
    else if Proposals.readable p
         then (Return p, removed)
         else (Throw RangeError, removed).
Proof.
  intros Hp Hk Hin Hid Hu removed. unfold server.deleteProposal.
  rewrite (defineAction_parsed _ _ _ _ _ Hp). run_as.
  rewrite Hid, (owned_rows_owner p u _ Hk Hin Hu).
  cbn [existsb forallb]. rewrite orb_false_r, andb_true_r.
  rewrite (filter_not_key p u _ Hk Hin Hu).
  destruct (Db.referenced _ p); [reflexivity |].
  destruct (Proposals.readable p); reflexivity.
Qed.

(** C6, as amended.  The owner of a stored proposal [p], which reads
    back as it is, calls [deleteProposal].  When no section refers to
    [p], the call returns [p] and [p] is no longer in the table.  When a
    section refers to [p], the database refuses the DELETE (the sections
    reference their proposal): the call throws and [p] stays.  Either
    way the only query is the DELETE on Proposals and the sections table
    is what it was. *)
Theorem deleteProposal_leaves_sections raw i u p rt w :
  input.deleteProposal raw = Some i ->
  keysUnique (db w) ->
  In p (tProposals (db w)) ->
  input.id i = Proposals.id p ->
  Proposals.userId p = App.id u ->
  readsBack p ->
  exists w',
    server.deleteProposal raw (signedIn u) rt w
    = (if Db.referenced (tProposalSections (db w)) p
       then Throw ForeignKeyError else Return p, w')
    /\ tProposals (db w')
       = (if Db.referenced (tProposalSections (db w)) p
          then tProposals (db w)
          else filter (fun r => negb (String.eqb (Proposals.id r)
                                                 (Proposals.id p)))
                      (tProposals (db w)))
    /\ (Db.referenced (tProposalSections (db w)) p = false ->
        ~ In p (tProposals (db w')))
    /\ queries w' = queries w ++ [Delete TProposals]
    /\ tProposalSections (db w') = tProposalSections (db w).
Proof.
  intros Hp Hk Hin Hid Hu [_ [_ [_ Hread]]].
  rewrite (deleteProposal_run raw i u p rt w Hp Hk Hin Hid Hu), Hread.
  destruct (Db.referenced _ p).
  - eexists. split; [reflexivity |]. cbn. repeat split. discriminate.
  - eexists. split; [reflexivity |]. cbn. repeat split.
    intros _ Hf. apply filter_In in Hf. destruct Hf as [_ Hf].
    now rewrite String.eqb_refl in Hf.
Qed.

Lemma sample_keysUnique3 : keysUnique (db Sample.world3).
Proof.
  repeat constructor; cbn; [intros [E | []]; discriminate E | intros []].
Qed.

Lemma sample_readsBack2 : readsBack Sample.proposal2.
Proof. repeat split. Qed.

Lemma deleteProposal_leaves_sections_witness :
  readsBack Sample.proposal2
  /\ exists w',
      server.deleteProposal (Js.VObject [("id", Js.VString "p2")])
                            (signedIn Sample.userB) Sample.runtime Sample.world3
      = (Return Sample.proposal2, w')
      /\ tProposals (db w') = [Sample.proposal1]
      /\ tProposalSections (db w') = [Sample.section1; Sample.section2].
Proof.
  split; [exact sample_readsBack2 |].
  destruct (deleteProposal_leaves_sections
              (Js.VObject [("id", Js.VString "p2")]) {| input.id := "p2" |}
              Sample.userB Sample.proposal2 Sample.runtime Sample.world3
              eq_refl sample_keysUnique3 (or_intror (or_introl eq_refl))
              eq_refl eq_refl sample_readsBack2)
    as [w' [H1 [H2 [_ [_ H5]]]]].
  exists w'. split; [exact H1 | split; [exact H2 | exact H5]].
Defined.

(** C6 as stated fails: the owner of a proposal that has a section
    cannot delete it.  The database refuses the DELETE and the proposal
    is neither removed nor returned. *)
Lemma deleteProposal_refused :
  In Sample.section1 (tProposalSections (db Sample.world1))
  /\ ProposalSections.proposalId Sample.section1
     = Proposals.id Sample.proposal1
  /\ (exists w',
         server.deleteProposal (Js.VObject [("id", Js.VString "p1")])
                               (signedIn Sample.userA) Sample.runtime
                               Sample.world1
         = (Throw ForeignKeyError, w')
         /\ db w' = db Sample.world1).
Proof.
  split; [now left | split; [reflexivity |]].
  eexists. split; reflexivity.
Qed.


(* ================================================================== *)
(** ** Saving a section (C2, C7, C8)                                    *)
(* ================================================================== *)

Lemma first_selected {A} (f : A -> bool) l :
  hd_error (Db.limited (Some 1) (filter f l)) = find f l.
Proof.
  induction l as [|a l IH]; cbn; [reflexivity |].
  destruct (f a); [reflexivity | exact IH].
Qed.

Lemma first_owned p user l :
  NoDup (map Proposals.id l) -> In p l ->
  Proposals.userId p = App.id user ->
  hd_error (Db.limited (Some 1) (filter (ownedBy (Proposals.id p) user) l))
  = Some p.
Proof. intros Hnd Hin Hu. now rewrite (owned_rows_owner p user l Hnd Hin Hu). Qed.

Lemma first_owned_at p user id l :
  NoDup (map Proposals.id l) -> In p l ->
  Proposals.id p = id ->
  Proposals.userId p = App.id user ->
  hd_error (Db.limited (Some 1) (filter (ownedBy id user) l)) = Some p.
Proof. intros Hnd Hin <- Hu. now apply first_owned. Qed.

Lemma find_idIs sid l s :
  find (ProposalSections.idIs sid) l = Some s ->
  In s l /\ ProposalSections.id s = Some sid.
Proof.
  intros H. apply find_some in H. destruct H as [Hin Hid].
  split; [exact Hin |]. unfold ProposalSections.idIs in Hid.
  destruct (ProposalSections.id s) as [x|]; [| discriminate].
  apply String.eqb_eq in Hid. now subst.
Qed.




(** The insert path of [saveSection]: the input has no [id], or the empty
    one, the caller owns the parent, and the order index is one the
    client hands back. *)
Lemma saveSection_insert raw i u parent rt w :
  input.saveSection raw = Some i ->
  input.ss_id i = None \/ input.ss_id i = Some "" ->
  keysUnique (db w) ->
  In parent (tProposals (db w)) ->
  Proposals.id parent = input.ss_proposalId i ->
  Proposals.userId parent = App.id u ->
  Sql.unsafe (input.ss_orderIndex i) = false ->
  let new :=
    {| ProposalSections.id := None;
       ProposalSections.proposalId := input.ss_proposalId i;
       ProposalSections.type := option_map Sql.text (input.ss_type i);
       ProposalSections.orderIndex := input.ss_orderIndex i;
       ProposalSections.heading := option_map Sql.text (input.ss_heading i);
       ProposalSections.content := Sql.text (input.ss_content i);
       ProposalSections.createdAt := clock rt (dateReads w) |} in
  exists w',
    server.saveSection raw (signedIn u) rt w = (Return (Some new), w')
    /\ tProposalSections (db w') = tProposalSections (db w) ++ [new]
    /\ tProposals (db w') = tProposals (db w).
Proof.
  intros Hp Hid Hk Hin Hpid Hu Hsafe new.
  destruct (saveSection_parsed raw i Hp) as [_ [Hi Hg]].
  unfold server.saveSection.
  rewrite (defineAction_parsed _ _ _ _ _ Hp). run_as.
  rewrite (first_owned_at parent u _ _ Hk Hin Hpid Hu).
  destruct Hid as [-> | ->]; cbn [Js.truthy]; world;
    cbv [ProposalSections.v_orderIndex ProposalSections.v_proposalId
         ProposalSections.stored ProposalSections.inserted
         ProposalSections.readable ProposalSections.orderIndex
         ProposalSections.id ProposalSections.proposalId ProposalSections.type
         ProposalSections.heading ProposalSections.content
         ProposalSections.createdAt ProposalSections.v_type
         ProposalSections.v_heading ProposalSections.v_content
         ProposalSections.v_createdAt];
    rewrite (integer_finite _ Hi), (existsb_id_true _ parent _ Hin Hpid),
      (positive_number _ Hg), Hsafe;
    cbn [negb hd_error]; eexists; repeat split.
Qed.

(** C7.  The owner of proposal "p1" saves a section without an [id]: the
    section that is inserted and returned has the supplied [proposalId],
    [orderIndex] and [content] and the clock's reading as [createdAt],
    but its [id] is empty: [baseValues] has no [id] key and nothing
    generates one. *)
Theorem saveSection_new_section_has_no_id :
  exists w',
    server.saveSection
      (Js.VObject [("proposalId", Js.VString "p1");
                   ("orderIndex", Js.VNumber (Js.ofPos 1));
                   ("content", Js.VString "Intro text")])
      (signedIn Sample.userA) Sample.runtime Sample.world1
    = (Return
         (Some {| ProposalSections.id := None;
                  ProposalSections.proposalId := "p1";
                  ProposalSections.type := None;
                  ProposalSections.orderIndex := Js.ofPos 1;
                  ProposalSections.heading := None;
                  ProposalSections.content := "Intro text";
                  ProposalSections.createdAt := 1700000000000%Z |}), w')
    /\ queries w' = [Select TProposals; Insert TProposalSections]
    /\ uuidReads w' = uuidReads Sample.world1.
Proof. eexists. split; [cbv; reflexivity | split; reflexivity]. Qed.




(* ================================================================== *)
(** ** Every operation is a step of the sections table                  *)
(* ================================================================== *)

Lemma first_owned_inv pid u l parent :
  hd_error (Db.limited (Some 1) (filter (ownedBy pid u) l)) = Some parent ->
  In parent l
  /\ Proposals.id parent = pid
  /\ Proposals.userId parent = App.id u.
Proof.
  rewrite first_selected. intros H. apply find_some in H.
  destruct H as [Hin Ho]. unfold ownedBy in Ho.
  apply andb_true_iff in Ho. destruct Ho as [Hi Hu].
  apply String.eqb_eq in Hi, Hu. auto.
Qed.

Lemma first_owned_parent pid u l parent d :
  hd_error (Db.limited (Some 1) (filter (ownedBy pid u) l)) = Some parent ->
  tProposals d = l ->
  ownsParent (Some u) pid d.
Proof.
  intros H <-. apply first_owned_inv in H. destruct H as [Hin [Hi Hu]].
  exists u, parent. auto.
Qed.

Lemma ordered_stored v :
  validValues v ->
  ordered (ProposalSections.stored (ProposalSections.inserted v)).
Proof.
  intros [_ [Hi Hg]]. unfold ordered. cbn.
  now rewrite (positive_number _ Hg).
Qed.

Lemma call_sectionsStep op raw context rt w :
  sectionsStep (localsUser context) w (snd (call op raw context rt w)).
Proof.
  destruct op; run.
  all: branches.
  all: try (apply SectionsSame; reflexivity).
  all: repeat match goal with
         | H : input.saveSection _ = Some _ |- _ =>
             apply saveSection_parsed in H
         | H : hd_error (Db.limited (Some 1) (filter (ownedBy _ _) _)) = Some _
           |- _ => apply first_owned_parent with (d := db w) in H;
                   [| reflexivity]
         end.
  all: cbn [db queries dateReads uuidReads tProposals tProposalSections] in *.
  all: try (eapply SectionsUpdate;
            [ cbn; reflexivity | cbn; assumption | cbn; assumption
            | rewrite <- first_selected; eassumption
            | cbn;
              match goal with
              | H : negb _ = false |- _ =>
                  apply negb_false_iff in H; now apply String.eqb_eq in H
              end ]).
  all: try (eapply SectionsInsert;
            [ cbn; reflexivity | reflexivity
            | apply ordered_stored; cbn; assumption
            | cbn; assumption ]).
  all: eapply SectionsDelete; cbn; try reflexivity; eassumption.
Qed.

Lemma sectionKeys_app l1 l2 :
  sectionKeys (l1 ++ l2) = sectionKeys l1 ++ sectionKeys l2.
Proof. unfold sectionKeys. apply flat_map_app. Qed.

Lemma sectionKeys_assign v (where_ : ProposalSections.row -> bool) l :
  sectionKeys
    (map (fun r => if where_ r then ProposalSections.assign v r else r) l)
  = sectionKeys l.
Proof.
  unfold sectionKeys. induction l as [|a l IH]; cbn; [reflexivity |].
  rewrite IH. now destruct (where_ a).
Qed.

Lemma sectionKeys_In s l x :
  In s l -> ProposalSections.id s = Some x -> In x (sectionKeys l).
Proof.
  intros Hin Hid. unfold sectionKeys. apply in_flat_map.
  exists s. split; [exact Hin |]. rewrite Hid. now left.
Qed.

Lemma sectionKeys_filter (keep : ProposalSections.row -> bool) l x :
  In x (sectionKeys (filter keep l)) -> In x (sectionKeys l).
Proof.
  unfold sectionKeys. rewrite !in_flat_map.
  intros [s [Hs Hx]]. apply filter_In in Hs. exists s. tauto.
Qed.

Lemma NoDup_sectionKeys_filter (keep : ProposalSections.row -> bool) l :
  NoDup (sectionKeys l) -> NoDup (sectionKeys (filter keep l)).
Proof.
  induction l as [|a l IH]; cbn; [auto |].
  change (flat_map _ l) with (sectionKeys l).
  destruct (ProposalSections.id a) as [x|] eqn:Hid; cbn.
  - intros H. inversion H as [|y ys Hn Hd]; subst.
    destruct (keep a); [| now apply IH].
    cbn. change (flat_map _ (filter keep l)) with (sectionKeys (filter keep l)).
    rewrite Hid. cbn. constructor; [| now apply IH].
    intros Hx. apply Hn. eapply sectionKeys_filter. exact Hx.
  - intros H. destruct (keep a); [| now apply IH].
    cbn. rewrite Hid. cbn. now apply IH.
Qed.

(** Two stored sections with the same id are the same row. *)
Lemma sectionKey_determines_row l a b x :
  NoDup (sectionKeys l) -> In a l -> In b l ->
  ProposalSections.id a = Some x -> ProposalSections.id b = Some x -> a = b.
Proof.
  induction l as [|c l IH]; cbn; [tauto |].
  change (flat_map _ l) with (sectionKeys l).
  intros Hnd Ha Hb Hia Hib.
  assert (Htail : NoDup (sectionKeys l)).
  { destruct (ProposalSections.id c); cbn in Hnd; [| exact Hnd].
    now inversion Hnd. }
  destruct Ha as [-> | Ha], Hb as [-> | Hb]; auto.
  - exfalso. rewrite Hia in Hnd. cbn in Hnd. inversion Hnd as [|y ys Hn Hd].
    apply Hn. eapply sectionKeys_In; eassumption.
  - exfalso. rewrite Hib in Hnd. cbn in Hnd. inversion Hnd as [|y ys Hn Hd].
    apply Hn. eapply sectionKeys_In; eassumption.
Qed.

Lemma idIs_true sid s :
  ProposalSections.idIs sid s = true <-> ProposalSections.id s = Some sid.
Proof.
  unfold ProposalSections.idIs. destruct (ProposalSections.id s) as [x|].
  - rewrite String.eqb_eq. split; congruence.
  - split; discriminate.
Qed.

Lemma step_sectionKeysUnique caller w w' :
  sectionsStep caller w w' ->
  sectionKeysUnique (db w) -> sectionKeysUnique (db w').
Proof.
  unfold sectionKeysUnique.
  intros [E | s E Hs _ _ | v sid existing E _ _ _ _ | sid pid E _] H; rewrite E.
  - exact H.
  - rewrite sectionKeys_app. cbn. rewrite Hs. now rewrite app_nil_r.
  - now rewrite sectionKeys_assign.
  - now apply NoDup_sectionKeys_filter.
Qed.

Lemma step_sectionsOrdered caller w w' :
  sectionsStep caller w w' ->
  sectionsOrdered (db w) -> sectionsOrdered (db w').
Proof.
  unfold sectionsOrdered.
  intros [E | s E _ Hs _ | v sid existing E Hv _ _ _ | sid pid E _] H; rewrite E.
  - exact H.
  - apply Forall_app. split; [exact H |]. constructor; [exact Hs | constructor].
  - apply Forall_map. eapply Forall_impl; [| exact H].
    intros r Hr. cbn beta. destruct (ProposalSections.idIs sid r);
      [exact (proj2 Hv) | exact Hr].
  - apply Forall_forall. intros s Hs. apply filter_In in Hs.
    rewrite Forall_forall in H. now apply H.
Qed.

(** A step keeps every row it does not select as it is. *)
Lemma step_keeps_row caller w w' s :
  sectionsStep caller w w' ->
  In s (tProposalSections (db w)) ->
  (forall v sid existing,
      ownsParent caller (ProposalSections.v_proposalId v) (db w) ->
      find (ProposalSections.idIs sid) (tProposalSections (db w))
      = Some existing ->
      ProposalSections.proposalId existing = ProposalSections.v_proposalId v ->
      ProposalSections.idIs sid s = false) ->
  (forall sid pid,
      ownsParent caller pid (db w) -> sectionOf sid pid s = false) ->
  In s (tProposalSections (db w')).
Proof.
  intros [E | s0 E _ _ _ | v sid existing E _ Ho Hf Hp | sid pid E Ho]
         Hin Hupd Hdel; rewrite E.
  - exact Hin.
  - apply in_or_app. now left.
  - apply in_map_iff. exists s. split; [| exact Hin].
    now rewrite (Hupd v sid existing Ho Hf Hp).
  - apply filter_In. split; [exact Hin |]. now rewrite (Hdel sid pid Ho).
Qed.

Lemma step_keeps_unkeyed caller w w' s :
  sectionsStep caller w w' ->
  In s (tProposalSections (db w)) ->
  ProposalSections.id s = None ->
  In s (tProposalSections (db w')).
Proof.
  intros Hstep Hin Hid. apply (step_keeps_row caller w w' s Hstep Hin).
  - intros. unfold ProposalSections.idIs. now rewrite Hid.
  - intros. unfold sectionOf, ProposalSections.idIs. now rewrite Hid.
Qed.

Lemma step_keeps_foreign caller w w' s :
  sectionsStep caller w w' ->
  sectionKeysUnique (db w) ->
  In s (tProposalSections (db w)) ->
  ~ ownsParent caller (ProposalSections.proposalId s) (db w) ->
  In s (tProposalSections (db w')).
Proof.
  intros Hstep Hk Hin Hno. apply (step_keeps_row caller w w' s Hstep Hin).
  - intros v sid existing Ho Hf Hp.
    destruct (ProposalSections.idIs sid s) eqn:Hs; [| reflexivity].
    exfalso. apply Hno. apply idIs_true in Hs.
    apply find_idIs in Hf. destruct Hf as [Hine Hide].
    rewrite (sectionKey_determines_row _ s existing sid Hk Hin Hine Hs Hide).
    now rewrite Hp.
  - intros sid pid Ho. unfold sectionOf.
    destruct (ProposalSections.idIs sid s); [| reflexivity]. cbn.
    destruct (String.eqb_spec (ProposalSections.proposalId s) pid) as [E | N];
      [| reflexivity].
    exfalso. apply Hno. now rewrite E.
Qed.

Lemma sample_sectionsWellFormed : sectionsWellFormed (db Sample.world1).
Proof.
  constructor; [| constructor].
  split; [discriminate | split; reflexivity].
Qed.

Lemma sample_sectionKeysUnique : sectionKeysUnique (db Sample.world1).
Proof. repeat constructor. intros []. Qed.

Lemma saveSection_stored_content raw i :
  input.saveSection raw = Some i ->
  contentBeginsWithNul raw = false ->
  Sql.text (input.ss_content i) <> "".
Proof.
  unfold input.saveSection, z.object, z.field, contentBeginsWithNul.
  destruct raw; try discriminate. parse_fields.
  intros H; inversion H; subst; cbn [input.ss_content].
  match goal with
  | Hm : z.min 1 z.string _ = Some _ |- _ =>
      apply min1_string in Hm; destruct Hm as [-> Hne]
  end.
  now apply text_nonempty.
Qed.

Lemma wellFormed_split l :
  Forall (fun s => ProposalSections.content s <> ""
                   /\ Js.isInteger (ProposalSections.orderIndex s) = true
                   /\ Js.gtZero (ProposalSections.orderIndex s) = true) l
  <-> Forall (fun s => ProposalSections.content s <> "") l /\ Forall ordered l.
Proof.
  unfold ordered. rewrite !Forall_forall. split.
  - intros H. split; intros s Hs; now apply H.
  - intros [H1 H2] s Hs. split; [now apply H1 | now apply H2].
Qed.

(** Every operation keeps the contents non-empty when the [content] of
    its input does not begin with U+0000. *)
Lemma call_contents op raw context rt w :
  contentBeginsWithNul raw = false ->
  Forall (fun s => ProposalSections.content s <> "")
         (tProposalSections (db w)) ->
  Forall (fun s => ProposalSections.content s <> "")
         (tProposalSections (db (snd (call op raw context rt w)))).
Proof.
  intros Hn H. destruct op; run.
  all: branches; try exact H.
  all: try (apply Forall_app; split; [exact H |];
            constructor; [| constructor]; cbn;
            eauto using saveSection_stored_content).
  all: try (apply Forall_forall; intros s Hs; apply filter_In in Hs;
            rewrite Forall_forall in H; now apply H).
  apply Forall_map. eapply Forall_impl; [| exact H].
  intros x Hx. cbn beta. destruct (ProposalSections.idIs _ x); [| exact Hx].
  cbn. match goal with
       | Hp : input.saveSection _ = Some _ |- _ =>
           exact (proj1 (saveSection_parsed _ _ Hp))
       end.
Qed.

(* ================================================================== *)
(** ** What every operation keeps of the sections table                 *)
(* ================================================================== *)

(** X1.  Every operation whose input has no [content] that begins with
    U+0000, whatever its caller and its outcome, keeps the invariant that
    each persisted section has a non-empty [content] and a positive
    integer [orderIndex]: [saveSection] writes only values that passed
    its schema and nothing else writes these columns.  (The schema counts
    the characters of the content it is given; the table hands a content
    back only up to its first U+0000.) *)
Theorem sections_stay_well_formed op raw context rt w :
  sectionsWellFormed (db w) ->
  contentBeginsWithNul raw = false ->
  sectionsWellFormed (db (snd (call op raw context rt w))).
Proof.
  unfold sectionsWellFormed. intros H Hn.
  apply wellFormed_split in H. destruct H as [Hc Ho].
  apply wellFormed_split. split.
  - now apply call_contents.
  - pose proof (call_sectionsStep op raw context rt w) as Hstep.
    exact (step_sectionsOrdered _ _ _ Hstep Ho).
Qed.

Lemma sections_stay_well_formed_witness :
  sectionsWellFormed (db Sample.world1)
  /\ sectionsWellFormed
       (db (snd (call SaveSection
                      (Js.VObject [("proposalId", Js.VString "p1");
                                   ("orderIndex", Js.VNumber (Js.ofPos 2));
                                   ("content", Js.VString "Scope")])
                      (signedIn Sample.userA) Sample.runtime Sample.world1))).
Proof.
  split; [exact sample_sectionsWellFormed |].
  apply (sections_stay_well_formed SaveSection _ (signedIn Sample.userA)
           Sample.runtime Sample.world1).
  - exact sample_sectionsWellFormed.
  - reflexivity.
Defined.

(** X2.  Every operation keeps the section ids distinct: no operation
    stores a second row under an id that is in use ([saveSection] inserts
    rows without an id and never assigns to the [id] column). *)
Theorem section_ids_stay_unique op raw context rt w :
  sectionKeysUnique (db w) ->
  sectionKeysUnique (db (snd (call op raw context rt w))).
Proof.
  intros H.
  pose proof (call_sectionsStep op raw context rt w) as Hstep.
  revert H. exact (step_sectionKeysUnique _ _ _ Hstep).
Qed.

Lemma section_ids_stay_unique_witness :
  sectionKeysUnique (db Sample.world1)
  /\ sectionKeysUnique
       (db (snd (call SaveSection
                      (Js.VObject [("id", Js.VString "s1");
                                   ("proposalId", Js.VString "p1");
                                   ("orderIndex", Js.VNumber (Js.ofPos 2));
                                   ("content", Js.VString "Scope")])
                      (signedIn Sample.userA) Sample.runtime Sample.world1))).
Proof.
  split; [exact sample_sectionKeysUnique |].
  apply (section_ids_stay_unique SaveSection _ (signedIn Sample.userA)
           Sample.runtime Sample.world1).
  exact sample_sectionKeysUnique.
Defined.

(** X3.  A stored section without an id (as [saveSection] inserts them) is
    out of reach: after any operation, by any caller and with any input,
    it is still stored, unchanged.  [saveSection] cannot update it and
    [deleteSection] cannot delete it, because both select by id. *)
Theorem section_without_id_is_permanent op raw context rt w s :
  In s (tProposalSections (db w)) ->
  ProposalSections.id s = None ->
  In s (tProposalSections (db (snd (call op raw context rt w)))).
Proof.
  intros Hin Hid.
  pose proof (call_sectionsStep op raw context rt w) as Hstep.
  exact (step_keeps_unkeyed _ _ _ s Hstep Hin Hid).
Qed.

Lemma section_without_id_is_permanent_witness :
  In Sample.section2
     (tProposalSections
        (db (snd (call DeleteSection
                       (Js.VObject [("id", Js.VString "");
                                    ("proposalId", Js.VString "p1")])
                       (signedIn Sample.userA) Sample.runtime Sample.world3)))).
Proof.
  apply (section_without_id_is_permanent DeleteSection _ (signedIn Sample.userA)
           Sample.runtime Sample.world3 Sample.section2).
  - right. left. reflexivity.
  - reflexivity.
Defined.

(** X4.  An operation changes or removes only sections under a proposal
    its caller owns: with distinct section ids, a stored section whose
    [proposalId] is not the id of a stored proposal of the caller is
    still stored, unchanged, after any operation of that caller. *)
Theorem sections_of_others_untouched op raw u rt w s :
  sectionKeysUnique (db w) ->
  In s (tProposalSections (db w)) ->
  (forall p, In p (tProposals (db w)) ->
             Proposals.id p = ProposalSections.proposalId s ->
             Proposals.userId p <> App.id u) ->
  In s (tProposalSections (db (snd (call op raw (signedIn u) rt w)))).
Proof.
  intros Hk Hin Hforeign.
  pose proof (call_sectionsStep op raw (signedIn u) rt w) as Hstep.
  apply (step_keeps_foreign _ _ _ s Hstep Hk Hin).
  intros [u' [parent [Hu [Hp [Hi Ho]]]]].
  cbn in Hu. inversion Hu; subst u'.
  exact (Hforeign parent Hp Hi Ho).
Qed.

Lemma sections_of_others_untouched_witness :
  In Sample.section1
     (tProposalSections
        (db (snd (call DeleteSection
                       (Js.VObject [("id", Js.VString "s1");
                                    ("proposalId", Js.VString "p1")])
                       (signedIn Sample.userB) Sample.runtime Sample.world1)))).
Proof.
  apply (sections_of_others_untouched DeleteSection _ Sample.userB
           Sample.runtime Sample.world1 Sample.section1).
  - exact sample_sectionKeysUnique.
  - left. reflexivity.
  - intros p [<- | []] _. discriminate.
Defined.

(* ================================================================== *)
(** ** What every operation keeps of the proposals table                *)
(* ================================================================== *)

Lemma hd_error_nil {A} (l : list A) : hd_error l = None -> l = [].
Proof. destruct l; [reflexivity | discriminate]. Qed.

Lemma same_db (d : Database) :
  {| tProposals := tProposals d; tProposalSections := tProposalSections d |} = d.
Proof. now destruct d. Qed.

(** X5.  An operation that fails leaves the database as it was, unless
    the failure is the client's [RangeError]: whatever the operation, its
    input and its caller, when it throws anything else, no row of either
    table has been added, changed or removed.  (The [RangeError] is left
    out because the client also throws it while it reads the row that a
    statement has just written.) *)
Theorem failure_changes_nothing op raw context rt w e :
  fst (call op raw context rt w) = Throw e ->
  e <> RangeError ->
  db (snd (call op raw context rt w)) = db w.
Proof.
  destruct op; run; branches; cbn [fst snd db]; intros H Hne;
    try discriminate H; try reflexivity;
    try (inversion H; subst e; congruence).
  all: cbn [db tProposals tProposalSections] in *.
  all: try apply same_db.
  all: match goal with
       | H : hd_error (filter ?f ?l) = None |- _ =>
           apply hd_error_nil in H; rewrite (filter_none_negb f l H)
       end; apply same_db.
Qed.

Lemma failure_changes_nothing_witness :
  fst (call DeleteProposal (Js.VObject [("id", Js.VString "p1")])
            (signedIn Sample.userA) Sample.runtime Sample.world3)
  = Throw ForeignKeyError
  /\ db (snd (call DeleteProposal (Js.VObject [("id", Js.VString "p1")])
                   (signedIn Sample.userA) Sample.runtime Sample.world3))
     = db Sample.world3.
Proof.
  split; [reflexivity |].
  apply (failure_changes_nothing DeleteProposal _ (signedIn Sample.userA)
           Sample.runtime Sample.world3 ForeignKeyError).
  - reflexivity.
  - discriminate.
Defined.

(** X6.  [listProposals] and [getProposalWithSections] only read: whatever
    the input, the caller and the outcome, the database is unchanged and
    every query they send is a SELECT. *)
Theorem reads_only_read op raw context rt w :
  readOnly op = true ->
  db (snd (call op raw context rt w)) = db w
  /\ exists sent,
      queries (snd (call op raw context rt w)) = queries w ++ sent
      /\ forallb isSelect sent = true.
Proof.
  intros Hro. destruct op; try discriminate Hro; run; branches;
    cbn [fst snd db queries]; (split; [reflexivity |]).
  all: first
         [ exists []; split; [now rewrite app_nil_r | reflexivity]
         | rewrite <- ?app_assoc; eexists; split; [reflexivity | reflexivity] ].
Qed.

Lemma reads_only_read_witness :
  db (snd (call GetProposalWithSections (Js.VObject [("id", Js.VString "p1")])
                (signedIn Sample.userA) Sample.runtime Sample.world3))
  = db Sample.world3
  /\ exists sent,
      queries (snd (call GetProposalWithSections
                         (Js.VObject [("id", Js.VString "p1")])
                         (signedIn Sample.userA) Sample.runtime Sample.world3))
      = queries Sample.world3 ++ sent
      /\ forallb isSelect sent = true.
Proof.
  apply (reads_only_read GetProposalWithSections _ (signedIn Sample.userA)
           Sample.runtime Sample.world3).
  reflexivity.
Defined.

(** X7.  What an operation can throw, and when, the client's
    [RangeError] apart.  The input error is thrown only for an input its
    schema rejects; UNAUTHORIZED only for an accepted input without an
    identity; "Proposal not found." only by the five operations that look
    a proposal up, for a signed-in caller; "Section not found." only by
    [saveSection] and [deleteSection]; the database's primary-key error
    only by [createProposal]; and its foreign-key error only by
    [deleteProposal]. *)
Theorem what_is_thrown op raw context rt w e :
  fst (call op raw context rt w) = Throw e ->
  e <> RangeError ->
  (e = ActionInputError /\ accepts op raw = false)
  \/ (e = unauthorized /\ accepts op raw = true
      /\ localsUser context = None)
  \/ (e = proposalNotFound /\ accepts op raw = true
      /\ localsUser context <> None
      /\ op <> CreateProposal /\ op <> ListProposals)
  \/ (e = sectionNotFound /\ accepts op raw = true
      /\ localsUser context <> None
      /\ (op = SaveSection \/ op = DeleteSection))
  \/ (e = ConstraintError /\ accepts op raw = true
      /\ localsUser context <> None
      /\ op = CreateProposal)
  \/ (e = ForeignKeyError /\ accepts op raw = true
      /\ localsUser context <> None
      /\ op = DeleteProposal).
Proof.
  destruct op; run; branches; cbn [fst]; intros H Hne;
    try discriminate H; inversion H; subst e; clear H;
    try congruence;
    unfold accepts;
    repeat match goal with
           | H : ?x = _ |- context [?x] => rewrite H
           end;
    cbn [isSome].
  all: try (exfalso;
            match goal with
            | Hf : hd_error (Db.limited (Some 1) (filter (ownedBy _ _) _))
                   = Some ?r,
              Hn : negb (existsb _ _) = true |- _ =>
                apply first_owned_inv in Hf; destruct Hf as [Hin [Hi _]];
                cbn in Hn; rewrite (existsb_id_true _ r _ Hin Hi) in Hn;
                discriminate Hn
            end).
  all: first
         [ left; split; reflexivity
         | right; left; repeat split; reflexivity
         | right; right; left; repeat split; discriminate || reflexivity
         | right; right; right; left; repeat split;
           first [reflexivity | discriminate | now left | now right]
         | right; right; right; right; left; repeat split;
           discriminate || reflexivity
         | right; right; right; right; right; repeat split;
           discriminate || reflexivity ].
Qed.

Lemma what_is_thrown_witness :
  fst (call DeleteProposal (Js.VObject [("id", Js.VString "p1")])
            (signedIn Sample.userA) Sample.runtime Sample.world3)
  = Throw ForeignKeyError
  /\ accepts DeleteProposal (Js.VObject [("id", Js.VString "p1")]) = true.
Proof.
  split; [reflexivity |].
  destruct (what_is_thrown DeleteProposal
              (Js.VObject [("id", Js.VString "p1")])
              (signedIn Sample.userA) Sample.runtime Sample.world3
              ForeignKeyError eq_refl ltac:(discriminate))
    as [[H _] | [[H _] | [[H _] | [[H _] | [[H _] | [_ [H _]]]]]]];
    try discriminate H.
  exact H.
Defined.

(** X8.  No operation changes or removes a proposal of someone else: a
    stored proposal whose [userId] is not the caller's id (or any stored
    proposal, when the caller has no identity) is still stored, unchanged,
    after the operation, whatever the operation and its input. *)
Theorem proposals_of_others_untouched op raw context rt w p :
  In p (tProposals (db w)) ->
  (forall u, localsUser context = Some u -> Proposals.userId p <> App.id u) ->
  In p (tProposals (db (snd (call op raw context rt w)))).
Proof.
  intros Hin Hother.
  destruct op; run; branches; cbn [snd db tProposals]; try exact Hin.
  all: specialize (Hother _ eq_refl).
  all: try (apply in_or_app; now left).
  all: try (apply in_map_iff; exists p; split; [| exact Hin]).
  all: try (apply filter_In; split; [exact Hin |]).
  all: unfold ownedBy;
    match goal with
    | |- context [String.eqb (Proposals.userId ?q) (App.id ?u)] =>
        destruct (String.eqb_spec (Proposals.userId q) (App.id u)) as [E | N];
        [contradiction |]
    end;
    now rewrite andb_false_r.
Qed.

Lemma proposals_of_others_untouched_witness :
  In Sample.proposal1
     (tProposals
        (db (snd (call UpdateProposal
                       (Js.VObject [("id", Js.VString "p1");
                                    ("title", Js.VString "Taken over")])
                       (signedIn Sample.userB) Sample.runtime Sample.world3)))).
Proof.
  apply (proposals_of_others_untouched UpdateProposal _ (signedIn Sample.userB)
           Sample.runtime Sample.world3 Sample.proposal1).
  - left. reflexivity.
  - intros u Hu. inversion Hu; subst u. discriminate.
Defined.

Lemma step_identity rt w w' p p' :
  proposalsStep rt w w' ->
  keysUnique (db w) ->
  In p (tProposals (db w)) ->
  In p' (tProposals (db w')) ->
  Proposals.id p' = Proposals.id p ->
  Proposals.userId p' = Proposals.userId p
  /\ Proposals.createdAt p' = Proposals.createdAt p.
Proof.
  unfold keysUnique.
  intros [E _ | r E Hn _ _ | c f E _ _ | keep E _] Hk Hp Hp' Hid;
    rewrite E in Hp'.
  - now rewrite (key_determines_row p p' _ Hk Hp Hp' Hid).
  - apply in_app_or in Hp'. destruct Hp' as [Hp' | [<- | []]].
    + now rewrite (key_determines_row p p' _ Hk Hp Hp' Hid).
    + exfalso. apply Hn. rewrite Hid. now apply in_map.
  - apply in_map_iff in Hp'. destruct Hp' as [q [Hq Hin]].
    assert (Hqid : Proposals.id q = Proposals.id p)
      by (rewrite <- Hid, <- Hq; now destruct (f q)).
    rewrite (key_determines_row p q _ Hk Hp Hin Hqid) in Hq.
    rewrite <- Hq. now destruct (f p).
  - apply filter_In in Hp'. destruct Hp' as [Hp' _].
    now rewrite (key_determines_row p p' _ Hk Hp Hp' Hid).
Qed.

(** X9.  The owner and the creation date of a proposal never change: with
    [Proposals.id] a primary key, a proposal stored after an operation
    under the id of a proposal stored before it has the [userId] and the
    [createdAt] that proposal had. *)
Theorem owner_is_immutable op raw context rt w p p' :
  keysUnique (db w) ->
  In p (tProposals (db w)) ->
  In p' (tProposals (db (snd (call op raw context rt w)))) ->
  Proposals.id p' = Proposals.id p ->
  Proposals.userId p' = Proposals.userId p
  /\ Proposals.createdAt p' = Proposals.createdAt p.
Proof.
  intros Hk Hp Hp' Hid.
  pose proof (call_step op raw context rt w) as Hstep.
  exact (step_identity rt _ _ p p' Hstep Hk Hp Hp' Hid).
Qed.

Lemma owner_is_immutable_witness :
  let renamed :=
    {| Proposals.id := "p1";
       Proposals.userId := "user-a";
       Proposals.title := "Renamed";
       Proposals.clientName := Some "ACME";
       Proposals.projectName := None;
       Proposals.currency := None;
       Proposals.estimatedValue := None;
       Proposals.status := Some "draft";
       Proposals.notes := None;
       Proposals.createdAt := 1600000000000%Z;
       Proposals.updatedAt := 1700000000000%Z |} in
  In renamed
     (tProposals
        (db (snd (call UpdateProposal
                       (Js.VObject [("id", Js.VString "p1");
                                    ("title", Js.VString "Renamed")])
                       (signedIn Sample.userA) Sample.runtime Sample.world1))))
  /\ Proposals.userId renamed = Proposals.userId Sample.proposal1
  /\ Proposals.createdAt renamed = Proposals.createdAt Sample.proposal1.
Proof.
  intros renamed.
  assert (Hin : In renamed
                   (tProposals
                      (db (snd (call UpdateProposal
                                     (Js.VObject [("id", Js.VString "p1");
                                                  ("title", Js.VString "Renamed")])
                                     (signedIn Sample.userA) Sample.runtime
                                     Sample.world1)))))
    by (left; reflexivity).
  split; [exact Hin |].
  exact (owner_is_immutable UpdateProposal _ (signedIn Sample.userA)
           Sample.runtime Sample.world1 Sample.proposal1 renamed
           sample_keysUnique (or_introl eq_refl) Hin eq_refl).
Defined.

(* ================================================================== *)
(** ** Creating, listing and reading proposals                          *)
(* ================================================================== *)

Lemma existsb_id_absent l x :
  ~ In x (map Proposals.id l) ->
  existsb (fun p => String.eqb (Proposals.id p) x) l = false.
Proof.
  induction l as [|p l IH]; cbn; [reflexivity |].
  intros H. apply orb_false_iff. split.
  - apply String.eqb_neq. intros E. apply H. now left.
  - apply IH. intros I. apply H. now right.
Qed.

Lemma existsb_id_present l q :
  In q l ->
  existsb (fun p => String.eqb (Proposals.id p) (Proposals.id q)) l = true.
Proof.
  intros Hin. apply existsb_exists. exists q.
  split; [exact Hin | apply String.eqb_refl].
Qed.

(** X10.  [createProposal], called by a signed-in caller with an input
    that passes the schema and an id that is not in use (the input's
    [id], the empty string included, or else a fresh UUID), stores and
    returns one new row, provided that the [estimatedValue], when there
    is one, is finite and no unsafe integer, and that neither the id nor
    the caller's id holds U+0000.  The [userId] of the row is the
    caller's id, its properties are the input's (NULL where omitted, a
    text up to its first U+0000, the number as the column holds it),
    [createdAt] and [updatedAt] are two successive readings of the clock.
    The row is appended; no other row and no section changes, and a UUID
    is drawn only when the input has no [id]. *)
Theorem createProposal_stores raw i u rt w :
  input.createProposal raw = Some i ->
  let id := match input.cp_id i with
            | Some x => x
            | None => uuid rt (uuidReads w)
            end in
  ~ In id (map Proposals.id (tProposals (db w))) ->
  Sql.bindable (input.cp_estimatedValue i) = true ->
  Sql.readable (input.cp_estimatedValue i) = true ->
  Sql.text id = id ->
  Sql.text (App.id u) = App.id u ->
  let p :=
    {| Proposals.id := id;
       Proposals.userId := App.id u;
       Proposals.title := Sql.text (input.cp_title i);
       Proposals.clientName := option_map Sql.text (input.cp_clientName i);
       Proposals.projectName := option_map Sql.text (input.cp_projectName i);
       Proposals.currency := option_map Sql.text (input.cp_currency i);
       Proposals.estimatedValue :=
         option_map Sql.number (input.cp_estimatedValue i);
       Proposals.status := option_map Sql.text (input.cp_status i);
       Proposals.notes := option_map Sql.text (input.cp_notes i);
       Proposals.createdAt := clock rt (dateReads w);
       Proposals.updatedAt := clock rt (S (dateReads w)) |} in
  exists w',
    server.createProposal raw (signedIn u) rt w = (Return (Some p), w')
    /\ tProposals (db w') = tProposals (db w) ++ [p]
    /\ tProposalSections (db w') = tProposalSections (db w)
    /\ uuidReads w' = match input.cp_id i with
                      | Some _ => uuidReads w
                      | None => S (uuidReads w)
                      end.
Proof.
  intros Hp id Hfresh Hb Hr _ _ p. unfold server.createProposal.
  rewrite (defineAction_parsed _ _ _ _ _ Hp). run_as.
  pose proof (existsb_id_absent _ _ Hfresh) as Hex.
  subst p id. destruct (input.cp_id i) as [x|]; world;
    unfold Proposals.readable, Proposals.stored;
    cbn [Proposals.id
         Proposals.estimatedValue Proposals.userId Proposals.title
         Proposals.clientName Proposals.projectName Proposals.currency
         Proposals.status Proposals.notes Proposals.createdAt
         Proposals.updatedAt];
    rewrite Hb, Hex, readable_stored, Hr; cbn [negb hd_error];
    eexists; (split; [reflexivity |]); repeat split.
Qed.

Lemma createProposal_stores_witness :
  exists w',
    server.createProposal
      (Js.VObject [("title", Js.VString "Mobile app");
                   ("estimatedValue", Js.VNumber (Js.ofPos 5000))])
      (signedIn Sample.userB) Sample.runtime Sample.world1
    = (Return
         (Some {| Proposals.id := "3f2b8c1e-0000-4000-8000-000000000001";
                  Proposals.userId := "user-b";
                  Proposals.title := "Mobile app";
                  Proposals.clientName := None;
                  Proposals.projectName := None;
                  Proposals.currency := None;
                  Proposals.estimatedValue := Some (Js.ofPos 5000);
                  Proposals.status := None;
                  Proposals.notes := None;
                  Proposals.createdAt := 1700000000000%Z;
                  Proposals.updatedAt := 1700000000001%Z |}), w')
    /\ uuidReads w' = 1.
Proof.
  destruct (createProposal_stores
              (Js.VObject [("title", Js.VString "Mobile app");
                           ("estimatedValue", Js.VNumber (Js.ofPos 5000))])
              {| input.cp_id := None; input.cp_title := "Mobile app";
                 input.cp_clientName := None; input.cp_projectName := None;
                 input.cp_currency := None;
                 input.cp_estimatedValue := Some (Js.ofPos 5000);
                 input.cp_status := None; input.cp_notes := None |}
              Sample.userB Sample.runtime Sample.world1 eq_refl)
    as [w' [H1 [_ [_ H5]]]]; try reflexivity.
  - intros [E | []]. discriminate E.
  - exists w'. split; [exact H1 | exact H5].
Defined.

(** X11.  [createProposal] with an [id] that a stored proposal already
    has, whoever owns it, stores nothing and throws no action error: it
    throws the database's primary-key error, or, when the
    [estimatedValue] is not finite, the client's [RangeError], which the
    client raises before the statement is sent. *)
Theorem createProposal_id_in_use raw i x u q rt w :
  input.createProposal raw = Some i ->
  input.cp_id i = Some x ->
  In q (tProposals (db w)) ->
  Proposals.id q = x ->
  exists w',
    server.createProposal raw (signedIn u) rt w
    = (Throw (if Sql.bindable (input.cp_estimatedValue i)
              then ConstraintError else RangeError), w')
    /\ db w' = db w
    /\ uuidReads w' = uuidReads w.
Proof.
  intros Hp Hid Hin Hq. unfold server.createProposal.
  rewrite (defineAction_parsed _ _ _ _ _ Hp). run_as.
  rewrite Hid. world. cbn [Proposals.id Proposals.estimatedValue]. subst x.
  rewrite (existsb_id_present _ q Hin).
  destruct (Sql.bindable _); cbn [negb]; eexists; repeat split.
Qed.

Lemma createProposal_id_in_use_witness :
  exists w',
    server.createProposal
      (Js.VObject [("id", Js.VString "p1"); ("title", Js.VString "Mine")])
      (signedIn Sample.userB) Sample.runtime Sample.world1
    = (Throw ConstraintError, w')
    /\ db w' = db Sample.world1.
Proof.
  destruct (createProposal_id_in_use
              (Js.VObject [("id", Js.VString "p1");
                           ("title", Js.VString "Mine")])
              {| input.cp_id := Some "p1"; input.cp_title := "Mine";
                 input.cp_clientName := None; input.cp_projectName := None;
                 input.cp_currency := None; input.cp_estimatedValue := None;
                 input.cp_status := None; input.cp_notes := None |}
              "p1" Sample.userB Sample.proposal1 Sample.runtime Sample.world1
              eq_refl eq_refl (or_introl eq_refl) eq_refl)
    as [w' [H1 [H2 _]]].
  exists w'. split; [exact H1 | exact H2].
Defined.



Lemma hd_filter_find {A} (f : A -> bool) l : hd_error (filter f l) = find f l.
Proof.
  induction l as [|a l IH]; cbn; [reflexivity |].
  destruct (f a); [reflexivity | exact IH].
Qed.




(* ================================================================== *)
(** ** Deleting a section                                               *)
(* ================================================================== *)



Lemma filter_filter_negb {A} (f : A -> bool) l :
  filter f (filter (fun r => negb (f r)) l) = [].
Proof.
  induction l as [|a l IH]; cbn; [reflexivity |].
  destruct (f a) eqn:E; cbn; [exact IH |]. now rewrite E.
Qed.

Lemma filter_negb_idem {A} (f : A -> bool) l :
  filter (fun r => negb (f r)) (filter (fun r => negb (f r)) l)
  = filter (fun r => negb (f r)) l.
Proof.
  induction l as [|a l IH]; cbn; [reflexivity |].
  destruct (f a) eqn:E; cbn; [exact IH |]. rewrite E. cbn. now rewrite IH.
Qed.




(** X15.  Deleting a section twice: when [deleteSection] has returned a
    section, the same call made again throws "Section not found." and
    changes nothing. *)
Theorem deleteSection_twice raw u rt w s w1 :
  server.deleteSection raw (signedIn u) rt w = (Return s, w1) ->
  exists w2,
    server.deleteSection raw (signedIn u) rt w1 = (Throw sectionNotFound, w2)
    /\ db w2 = db w1.
Proof.
  unfold server.deleteSection, defineAction.
  destruct (input.deleteSection raw) as [i|]; [| discriminate].
  run_as.
  destruct (hd_error (Db.limited (Some 1) _)) as [parent|] eqn:Hparent;
    [| discriminate].
  world.
  destruct (hd_error (filter _ (tProposalSections (db w)))) as [s'|] eqn:Hs;
    [| discriminate].
  intros H. inversion H; subst s' w1; clear H. world.
  rewrite Hparent. world.
  rewrite (filter_filter_negb
             (fun s0 => ProposalSections.idIs (input.ds_id i) s0
                        && String.eqb (ProposalSections.proposalId s0)
                                      (input.ds_proposalId i))).
  cbn [hd_error].
  eexists. split; [reflexivity |]. cbn [db tProposals tProposalSections].
  now rewrite (filter_negb_idem
                 (fun s0 => ProposalSections.idIs (input.ds_id i) s0
                            && String.eqb (ProposalSections.proposalId s0)
                                          (input.ds_proposalId i))).
Qed.

Lemma deleteSection_twice_witness :
  exists w1 w2,
    server.deleteSection
      (Js.VObject [("id", Js.VString "s1"); ("proposalId", Js.VString "p1")])
      (signedIn Sample.userA) Sample.runtime Sample.world1
    = (Return Sample.section1, w1)
    /\ server.deleteSection
         (Js.VObject [("id", Js.VString "s1"); ("proposalId", Js.VString "p1")])
         (signedIn Sample.userA) Sample.runtime w1
       = (Throw sectionNotFound, w2).
Proof.
  eexists. 
  assert (H1 : server.deleteSection
                 (Js.VObject [("id", Js.VString "s1");
                              ("proposalId", Js.VString "p1")])
                 (signedIn Sample.userA) Sample.runtime Sample.world1
               = (Return Sample.section1,
                  snd (server.deleteSection
                         (Js.VObject [("id", Js.VString "s1");
                                      ("proposalId", Js.VString "p1")])
                         (signedIn Sample.userA) Sample.runtime Sample.world1)))
    by reflexivity.
  destruct (deleteSection_twice _ _ _ _ _ _ H1) as [w2 [H2 _]].
  exists w2. split; [exact H1 | exact H2].
Defined.

(* ================================================================== *)
(** ** Section operations go through the parent                         *)
(* ================================================================== *)

Lemma no_owned_rows pid u l :
  (forall p, In p l -> Proposals.id p = pid ->
             Proposals.userId p <> App.id u) ->
  filter (ownedBy pid u) l = [].
Proof.
  intros H. induction l as [|a l IH]; cbn; [reflexivity |].
  unfold ownedBy at 1.
  destruct (String.eqb_spec (Proposals.id a) pid) as [E | N]; cbn.
  - destruct (String.eqb_spec (Proposals.userId a) (App.id u)) as [Eu | Nu].
    + exfalso. exact (H a (or_introl eq_refl) E Eu).
    + apply IH. intros p Hp. apply H. now right.
  - apply IH. intros p Hp. apply H. now right.
Qed.

(** X16.  [saveSection] and [deleteSection] reach no section unless the
    caller owns the parent: when no stored proposal with the input's
    [proposalId] belongs to the caller (none exists, or it is someone
    else's), both throw "Proposal not found." after the one SELECT on
    Proposals; no section is read or written, the clock is not read, and
    whether a section with the given id exists makes no difference. *)
Theorem section_operations_need_the_parent pid u rt w :
  (forall p, In p (tProposals (db w)) -> Proposals.id p = pid ->
             Proposals.userId p <> App.id u) ->
  (forall raw i,
      input.saveSection raw = Some i ->
      input.ss_proposalId i = pid ->
      exists w',
        server.saveSection raw (signedIn u) rt w = (Throw proposalNotFound, w')
        /\ db w' = db w
        /\ queries w' = queries w ++ [Select TProposals]
        /\ dateReads w' = dateReads w)
  /\ (forall raw i,
         input.deleteSection raw = Some i ->
         input.ds_proposalId i = pid ->
         exists w',
           server.deleteSection raw (signedIn u) rt w
           = (Throw proposalNotFound, w')
           /\ db w' = db w
           /\ queries w' = queries w ++ [Select TProposals]).
Proof.
  intros Hnone. pose proof (no_owned_rows pid u _ Hnone) as Hf. split.
  - intros raw i Hp Hpid. unfold server.saveSection.
    rewrite (defineAction_parsed _ _ _ _ _ Hp). run_as.
    rewrite Hpid, Hf. cbn. eexists. repeat split.
  - intros raw i Hp Hpid. unfold server.deleteSection.
    rewrite (defineAction_parsed _ _ _ _ _ Hp). run_as.
    rewrite Hpid, Hf. cbn. eexists. repeat split.
Qed.

Lemma section_operations_need_the_parent_witness :
  exists w',
    server.deleteSection
      (Js.VObject [("id", Js.VString "s1"); ("proposalId", Js.VString "p1")])
      (signedIn Sample.userB) Sample.runtime Sample.world3
    = (Throw proposalNotFound, w')
    /\ db w' = db Sample.world3.
Proof.
  assert (Hnone : forall p, In p (tProposals (db Sample.world3)) ->
                            Proposals.id p = "p1" ->
                            Proposals.userId p <> App.id Sample.userB).
  { intros p [<- | [<- | []]] E; discriminate. }
  destruct (proj2 (section_operations_need_the_parent
                     "p1" Sample.userB Sample.runtime Sample.world3 Hnone)
                  (Js.VObject [("id", Js.VString "s1");
                               ("proposalId", Js.VString "p1")])
                  {| input.ds_id := "s1"; input.ds_proposalId := "p1" |}
                  eq_refl eq_refl) as [w' [H1 [H2 _]]].
  exists w'. split; [exact H1 | exact H2].
Defined.

(* ================================================================== *)
(** ** How the operations compose                                       *)
(* ================================================================== *)

Lemma existsb_false_In {A} (f : A -> bool) l x :
  existsb f l = false -> In x l -> f x = false.
Proof.
  intros H Hin. destruct (f x) eqn:E; [| reflexivity].
  rewrite <- H. symmetry. apply existsb_exists. now exists x.
Qed.

Lemma hd_error_In {A} (l : list A) x : hd_error l = Some x -> In x l.
Proof. destruct l; [discriminate |]. intros H; inversion H. now left. Qed.

Lemma deleteProposal_inv raw u rt w p w1 :
  server.deleteProposal raw (signedIn u) rt w = (Return p, w1) ->
  exists i,
    input.deleteProposal raw = Some i
    /\ In p (tProposals (db w))
    /\ Proposals.id p = input.id i
    /\ Proposals.userId p = App.id u
    /\ tProposals (db w1)
       = filter (fun r => negb (ownedBy (input.id i) u r)) (tProposals (db w))
    /\ tProposalSections (db w1) = tProposalSections (db w)
    /\ Db.referenced (tProposalSections (db w)) p = false.
Proof.
  unfold server.deleteProposal, defineAction.
  destruct (input.deleteProposal raw) as [i|]; [| discriminate].
  run_as.
  destruct (existsb _ (filter _ (tProposals (db w)))) eqn:Hfk; [discriminate |].
  destruct (forallb _ (filter _ (tProposals (db w)))); [| discriminate].
  destruct (hd_error (filter _ (tProposals (db w)))) as [q|] eqn:Hq;
    [| discriminate].
  intros H. inversion H; subst q w1; clear H.
  pose proof (existsb_false_In _ _ p Hfk (hd_error_In _ _ Hq)) as Hno.
  rewrite hd_filter_find in Hq. apply find_some in Hq.
  destruct Hq as [Hin Ho]. unfold ownedBy in Ho.
  apply andb_true_iff in Ho. destruct Ho as [Hi Hu].
  apply String.eqb_eq in Hi, Hu.
  exists i. cbn. repeat split; assumption.
Qed.

(** After its owner deleted [p], no stored proposal has [p]'s id. *)
Lemma deleted_key_is_free p u l :
  NoDup (map Proposals.id l) -> In p l ->
  Proposals.userId p = App.id u ->
  ~ In (Proposals.id p)
       (map Proposals.id
            (filter (fun r => negb (ownedBy (Proposals.id p) u r)) l)).
Proof.
  intros Hk Hin Hu Hx. apply in_map_iff in Hx. destruct Hx as [q [Hq Hqin]].
  apply filter_In in Hqin. destruct Hqin as [Hqin Hneg].
  rewrite (ownedBy_is_key p u l q Hk Hin Hu Hqin), Hq in Hneg.
  now rewrite String.eqb_refl in Hneg.
Qed.

Lemma absent_key_owned_by_none x u l :
  ~ In x (map Proposals.id l) -> filter (ownedBy x u) l = [].
Proof.
  intros Hx. apply no_owned_rows. intros p Hp E. exfalso.
  apply Hx. rewrite <- E. now apply in_map.
Qed.

(** X17.  After a proposal was deleted its id leads nowhere: when
    [deleteProposal] has returned [p], then for every caller
    [getProposalWithSections], [deleteProposal] and [updateProposal] with
    [p]'s id, and [saveSection] under it, throw "Proposal not found." and
    change nothing. *)
Theorem after_deleteProposal raw u rt w p w1 u' :
  server.deleteProposal raw (signedIn u) rt w = (Return p, w1) ->
  keysUnique (db w) ->
  (forall rawg i,
      input.getProposalWithSections rawg = Some i ->
      input.id i = Proposals.id p ->
      exists w2,
        server.getProposalWithSections rawg (signedIn u') rt w1
        = (Throw proposalNotFound, w2)
        /\ db w2 = db w1)
  /\ (forall rawd i,
         input.deleteProposal rawd = Some i ->
         input.id i = Proposals.id p ->
         exists w2,
           server.deleteProposal rawd (signedIn u') rt w1
           = (Throw proposalNotFound, w2)
           /\ db w2 = db w1)
  /\ (forall rawu i,
         input.updateProposal rawu = Some i ->
         input.up_id i = Proposals.id p ->
         exists w2,
           server.updateProposal rawu (signedIn u') rt w1
           = (Throw proposalNotFound, w2)
           /\ db w2 = db w1)
  /\ (forall raws i,
         input.saveSection raws = Some i ->
         input.ss_proposalId i = Proposals.id p ->
         exists w2,
           server.saveSection raws (signedIn u') rt w1
           = (Throw proposalNotFound, w2)
           /\ db w2 = db w1).
Proof.
  intros Hdel Hk. apply deleteProposal_inv in Hdel.
  destruct Hdel as [i0 [_ [Hin [Hid [Hu [Hl1 _]]]]]].
  assert (Hfree : filter (ownedBy (Proposals.id p) u') (tProposals (db w1)) = []).
  { apply absent_key_owned_by_none. rewrite Hl1, <- Hid.
    now apply deleted_key_is_free. }
  repeat split.
  - intros rawg i Hp Hi. unfold server.getProposalWithSections.
    rewrite (defineAction_parsed _ _ _ _ _ Hp). run_as.
    rewrite Hi, Hfree. cbn. eexists. split; reflexivity.
  - intros rawd i Hp Hi. unfold server.deleteProposal.
    rewrite (defineAction_parsed _ _ _ _ _ Hp). run_as.
    rewrite Hi, Hfree. cbn. eexists. split; [reflexivity |]. cbn.
    rewrite (filter_none_negb _ _ Hfree). apply same_db.
  - intros rawu i Hp Hi. unfold server.updateProposal.
    rewrite (defineAction_parsed _ _ _ _ _ Hp). run_as.
    rewrite Hi, Hfree. cbn. eexists. split; reflexivity.
  - intros raws i Hp Hi. unfold server.saveSection.
    rewrite (defineAction_parsed _ _ _ _ _ Hp). run_as.
    rewrite Hi, Hfree. cbn. eexists. split; reflexivity.
Qed.

Lemma after_deleteProposal_witness :
  exists w1 w2,
    server.deleteProposal (Js.VObject [("id", Js.VString "p2")])
                          (signedIn Sample.userB) Sample.runtime Sample.world3
    = (Return Sample.proposal2, w1)
    /\ server.saveSection
         (Js.VObject [("proposalId", Js.VString "p2");
                      ("orderIndex", Js.VNumber (Js.ofPos 1));
                      ("content", Js.VString "Intro text")])
         (signedIn Sample.userB) Sample.runtime w1
       = (Throw proposalNotFound, w2).
Proof.
  eexists.
  assert (H1 : server.deleteProposal (Js.VObject [("id", Js.VString "p2")])
                 (signedIn Sample.userB) Sample.runtime Sample.world3
               = (Return Sample.proposal2,
                  snd (server.deleteProposal
                         (Js.VObject [("id", Js.VString "p2")])
                         (signedIn Sample.userB) Sample.runtime Sample.world3)))
    by reflexivity.
  destruct (after_deleteProposal _ _ _ _ _ _ Sample.userB H1 sample_keysUnique3)
    as [_ [_ [_ Hsave]]].
  destruct (Hsave (Js.VObject [("proposalId", Js.VString "p2");
                               ("orderIndex", Js.VNumber (Js.ofPos 1));
                               ("content", Js.VString "Intro text")])
                  {| input.ss_id := None; input.ss_proposalId := "p2";
                     input.ss_type := None; input.ss_orderIndex := Js.ofPos 1;
                     input.ss_heading := None;
                     input.ss_content := "Intro text" |}
                  eq_refl eq_refl) as [w2 [H2 _]].
  exists w2. split; [exact H1 | exact H2].
Defined.

Lemma createProposal_inv raw u rt w p w1 :
  server.createProposal raw (signedIn u) rt w = (Return (Some p), w1) ->
  tProposals (db w1) = tProposals (db w) ++ [p]
  /\ ~ In (Proposals.id p) (map Proposals.id (tProposals (db w)))
  /\ Proposals.userId p = App.id u
  /\ tProposalSections (db w1) = tProposalSections (db w).
Proof.
  unfold server.createProposal. run_as. branches;
    intros H; inversion H; subst; cbn;
    (split; [reflexivity | split; [| split; reflexivity]]);
    match goal with
    | H : existsb _ _ = false |- _ => cbn in H; now apply existsb_id_false
    end.
Qed.

Lemma getProposalWithSections_run raw i u p rt w :
  input.getProposalWithSections raw = Some i ->
  keysUnique (db w) ->
  In p (tProposals (db w)) ->
  input.id i = Proposals.id p ->
  Proposals.userId p = App.id u ->
  server.getProposalWithSections raw (signedIn u) rt w
  = (Return (p, filter (fun s => String.eqb (ProposalSections.proposalId s)
                                            (Proposals.id p))
                       (tProposalSections (db w))),
     Db.logged (Select TProposalSections) (db w)
               (Db.logged (Select TProposals) (db w) w)).
Proof.
  intros Hp Hk Hin Hid Hu. unfold server.getProposalWithSections.
  rewrite (defineAction_parsed _ _ _ _ _ Hp). run_as.
  rewrite Hid, (first_owned p u _ Hk Hin Hu). reflexivity.
Qed.

Lemma keysUnique_snoc l p :
  NoDup (map Proposals.id l) -> ~ In (Proposals.id p) (map Proposals.id l) ->
  NoDup (map Proposals.id (l ++ [p])).
Proof.
  intros Hk Hn. rewrite map_app. cbn.
  apply NoDup_app; [exact Hk | repeat constructor; intros [] |].
  intros a Ha [<- | []]. contradiction.
Qed.



Lemma unreferenced_has_no_sections sections (p : Proposals.row) :
  Db.referenced sections p = false ->
  filter (fun s => String.eqb (ProposalSections.proposalId s) (Proposals.id p))
         sections = [].
Proof.
  unfold Db.referenced. induction sections as [|s l IH]; cbn; [reflexivity |].
  intros H. apply orb_false_iff in H. destruct H as [-> Hl]. now apply IH.
Qed.

(** X19.  The id of a deleted proposal can be taken over, and nothing
    comes with it.  When [deleteProposal] has returned [p] to its owner,
    any signed-in caller can create a proposal under [p]'s id (with an
    [estimatedValue] that is finite and no unsafe integer, when that id
    and the caller's hold no U+0000), and [getProposalWithSections] then
    returns to that caller the new proposal with no section: a proposal
    that had sections could not have been deleted. *)
Theorem deleted_id_can_be_taken_over rawd uA uB rawc ic rt w p w1 :
  server.deleteProposal rawd (signedIn uA) rt w = (Return p, w1) ->
  keysUnique (db w) ->
  input.createProposal rawc = Some ic ->
  input.cp_id ic = Some (Proposals.id p) ->
  Sql.bindable (input.cp_estimatedValue ic) = true ->
  Sql.readable (input.cp_estimatedValue ic) = true ->
  Sql.text (Proposals.id p) = Proposals.id p ->
  Sql.text (App.id uB) = App.id uB ->
  exists p' w2,
    server.createProposal rawc (signedIn uB) rt w1 = (Return (Some p'), w2)
    /\ Proposals.id p' = Proposals.id p
    /\ Proposals.userId p' = App.id uB
    /\ forall rawg ig,
        input.getProposalWithSections rawg = Some ig ->
        input.id ig = Proposals.id p ->
        exists w3,
          server.getProposalWithSections rawg (signedIn uB) rt w2
          = (Return (p', []), w3).
Proof.
  intros Hdel Hk Hpc Hcid Hb Hr _ _. apply deleteProposal_inv in Hdel.
  destruct Hdel as [i0 [_ [Hin [Hid [Hu [Hl1 [Hs1 Hno]]]]]]].
  assert (Hfree : ~ In (Proposals.id p) (map Proposals.id (tProposals (db w1))))
    by (rewrite Hl1, <- Hid; now apply deleted_key_is_free).
  assert (Hk1 : keysUnique (db w1))
    by (unfold keysUnique; rewrite Hl1; now apply NoDup_map_filter).
  destruct (server.createProposal rawc (signedIn uB) rt w1) as [c w2] eqn:Hc.
  assert (Hret : exists p', c = Return (Some p')
                            /\ Proposals.id p' = Proposals.id p).
  { revert Hc. unfold server.createProposal.
    rewrite (defineAction_parsed _ _ _ _ _ Hpc). run_as.
    rewrite Hcid. world.
    unfold Proposals.readable, Proposals.stored.
    cbn [Proposals.id Proposals.estimatedValue].
    rewrite Hb, (existsb_id_absent _ _ Hfree), readable_stored, Hr.
    cbn [negb hd_error].
    intros H. inversion H. eexists. split; reflexivity. }
  destruct Hret as [p' [-> Hid']].
  pose proof (createProposal_inv _ _ _ _ _ _ Hc) as [Hl2 [_ [Hu' Hs2]]].
  exists p', w2. repeat split; try assumption.
  intros rawg ig Hpg Hig.
  assert (Hk2 : keysUnique (db w2)).
  { unfold keysUnique. rewrite Hl2. apply keysUnique_snoc; [exact Hk1 |].
    now rewrite Hid'. }
  assert (Hin2 : In p' (tProposals (db w2)))
    by (rewrite Hl2; apply in_or_app; right; now left).
  rewrite <- Hid' in Hig.
  rewrite (getProposalWithSections_run rawg ig uB p' rt w2 Hpg Hk2 Hin2 Hig Hu').
  rewrite Hs2, Hs1, Hid', (unreferenced_has_no_sections _ p Hno).
  eexists. reflexivity.
Qed.

Lemma deleted_id_can_be_taken_over_witness :
  exists w1 p' w2 w3,
    server.deleteProposal (Js.VObject [("id", Js.VString "p2")])
                          (signedIn Sample.userB) Sample.runtime Sample.world3
    = (Return Sample.proposal2, w1)
    /\ server.createProposal
         (Js.VObject [("id", Js.VString "p2"); ("title", Js.VString "Mine")])
         (signedIn Sample.userA) Sample.runtime w1
       = (Return (Some p'), w2)
    /\ Proposals.userId p' = "user-a"
    /\ server.getProposalWithSections (Js.VObject [("id", Js.VString "p2")])
                                      (signedIn Sample.userA) Sample.runtime w2
       = (Return (p', []), w3).
Proof.
  eexists.
  assert (H1 : server.deleteProposal (Js.VObject [("id", Js.VString "p2")])
                 (signedIn Sample.userB) Sample.runtime Sample.world3
               = (Return Sample.proposal2,
                  snd (server.deleteProposal
                         (Js.VObject [("id", Js.VString "p2")])
                         (signedIn Sample.userB) Sample.runtime Sample.world3)))
    by reflexivity.
  destruct (deleted_id_can_be_taken_over
              _ _ Sample.userA
              (Js.VObject [("id", Js.VString "p2");
                           ("title", Js.VString "Mine")])
              {| input.cp_id := Some "p2"; input.cp_title := "Mine";
                 input.cp_clientName := None; input.cp_projectName := None;
                 input.cp_currency := None; input.cp_estimatedValue := None;
                 input.cp_status := None; input.cp_notes := None |}
              _ _ _ _ H1 sample_keysUnique3 eq_refl eq_refl eq_refl eq_refl
              eq_refl eq_refl)
    as [p' [w2 [H2 [_ [H4 Hget]]]]].
  destruct (Hget (Js.VObject [("id", Js.VString "p2")]) {| input.id := "p2" |}
                 eq_refl eq_refl) as [w3 H3].
  exists p', w2, w3. repeat split; assumption.
Defined.

(** X20.  An inserted section is read back.  The owner of the parent
    calls [saveSection] without an id (or with the empty one) and with an
    [orderIndex] that is no unsafe integer; the parent and the stored
    sections read back as they are.  Then the section the call returns
    (the input's values, a text up to its first U+0000, without an id)
    is the last of the sections that [getProposalWithSections] returns
    for the parent afterwards, behind those that were stored before. *)
Theorem saved_section_is_read_back raw i u parent rt w :
  input.saveSection raw = Some i ->
  input.ss_id i = None \/ input.ss_id i = Some "" ->
  keysUnique (db w) ->
  In parent (tProposals (db w)) ->
  Proposals.id parent = input.ss_proposalId i ->
  Proposals.userId parent = App.id u ->
  Sql.unsafe (input.ss_orderIndex i) = false ->
  readsBack parent ->
  Forall sectionReadsBack (tProposalSections (db w)) ->
  let r :=
    {| ProposalSections.id := None;
       ProposalSections.proposalId := input.ss_proposalId i;
       ProposalSections.type := option_map Sql.text (input.ss_type i);
       ProposalSections.orderIndex := input.ss_orderIndex i;
       ProposalSections.heading := option_map Sql.text (input.ss_heading i);
       ProposalSections.content := Sql.text (input.ss_content i);
       ProposalSections.createdAt := clock rt (dateReads w) |} in
  exists w1,
    server.saveSection raw (signedIn u) rt w = (Return (Some r), w1)
    /\ forall rawg ig,
        input.getProposalWithSections rawg = Some ig ->
        input.id ig = input.ss_proposalId i ->
        exists w2,
          server.getProposalWithSections rawg (signedIn u) rt w1
          = (Return (parent,
                     filter (fun s =>
                               String.eqb (ProposalSections.proposalId s)
                                          (input.ss_proposalId i))
                            (tProposalSections (db w)) ++ [r]), w2).
Proof.
  intros Hp Hid Hk Hin Hpid Hu Hsafe _ _ r.
  destruct (saveSection_insert raw i u parent rt w Hp Hid Hk Hin Hpid Hu Hsafe)
    as [w1 [Hsave [Hs1 Hl1]]].
  exists w1. split; [exact Hsave |].
  intros rawg ig Hpg Hig.
  assert (Hk1 : keysUnique (db w1)) by (unfold keysUnique; now rewrite Hl1).
  assert (Hin1 : In parent (tProposals (db w1))) by now rewrite Hl1.
  rewrite <- Hpid in Hig.
  rewrite (getProposalWithSections_run rawg ig u parent rt w1
             Hpg Hk1 Hin1 Hig Hu).
  rewrite Hs1, filter_app, Hpid. cbn [filter ProposalSections.proposalId].
  rewrite String.eqb_refl. eexists. reflexivity.
Qed.

Lemma saved_section_is_read_back_witness :
  readsBack Sample.proposal1
  /\ Forall sectionReadsBack (tProposalSections (db Sample.world1))
  /\ exists r w1 w2,
      server.saveSection
        (Js.VObject [("proposalId", Js.VString "p1");
                     ("orderIndex", Js.VNumber (Js.ofPos 2));
                     ("content", Js.VString "Scope")])
        (signedIn Sample.userA) Sample.runtime Sample.world1
      = (Return (Some r), w1)
      /\ server.getProposalWithSections (Js.VObject [("id", Js.VString "p1")])
                                        (signedIn Sample.userA) Sample.runtime w1
         = (Return (Sample.proposal1, [Sample.section1; r]), w2).
Proof.
  assert (Hs : Forall sectionReadsBack (tProposalSections (db Sample.world1)))
    by (repeat constructor).
  split; [exact sample_readsBack | split; [exact Hs |]].
  destruct (saved_section_is_read_back
              (Js.VObject [("proposalId", Js.VString "p1");
                           ("orderIndex", Js.VNumber (Js.ofPos 2));
                           ("content", Js.VString "Scope")])
              {| input.ss_id := None; input.ss_proposalId := "p1";
                 input.ss_type := None; input.ss_orderIndex := Js.ofPos 2;
                 input.ss_heading := None; input.ss_content := "Scope" |}
              Sample.userA Sample.proposal1 Sample.runtime Sample.world1
              eq_refl (or_introl eq_refl) sample_keysUnique
              (or_introl eq_refl) eq_refl eq_refl eq_refl sample_readsBack Hs)
    as [w1 [H1 Hget]].
  destruct (Hget (Js.VObject [("id", Js.VString "p1")]) {| input.id := "p1" |}
                 eq_refl eq_refl) as [w2 H2].
  eexists _, w1, w2. split; [exact H1 | exact H2].
Defined.




(* ================================================================== *)
(** ** Worlds the operations bring about                                *)
(* ================================================================== *)

Lemma step_sections_unkeyed caller w w' :
  sectionsStep caller w w' ->
  Forall (fun s => ProposalSections.id s = None) (tProposalSections (db w)) ->
  Forall (fun s => ProposalSections.id s = None) (tProposalSections (db w')).
Proof.
  intros [E | s E Hs _ _ | v sid existing E _ _ _ _ | sid pid E _] H; rewrite E.
  - exact H.
  - apply Forall_app. split; [exact H | now repeat constructor].
  - apply Forall_map. eapply Forall_impl; [| exact H].
    intros r Hr. cbn beta. now destruct (ProposalSections.idIs sid r).
  - apply Forall_forall. intros s Hs. apply filter_In in Hs.
    rewrite Forall_forall in H. now apply H.
Qed.

Lemma references_more_proposals l l' sections :
  (forall x, In x (map Proposals.id l) -> In x (map Proposals.id l')) ->
  Forall (fun s => In (ProposalSections.proposalId s) (map Proposals.id l))
         sections ->
  Forall (fun s => In (ProposalSections.proposalId s) (map Proposals.id l'))
         sections.
Proof.
  intros Hsub H. eapply Forall_impl; [| exact H]. intros s. apply Hsub.
Qed.

(** The rows a refused or an accepted DELETE leaves are those the
    sections refer to. *)
Lemma references_after_delete (where_ : Proposals.row -> bool) l sections :
  existsb (Db.referenced sections) (filter where_ l) = false ->
  Forall (fun s => In (ProposalSections.proposalId s) (map Proposals.id l))
         sections ->
  Forall (fun s => In (ProposalSections.proposalId s)
                      (map Proposals.id
                           (filter (fun r => negb (where_ r)) l)))
         sections.
Proof.
  intros Hfk H. rewrite Forall_forall in *. intros s Hs.
  specialize (H s Hs). apply in_map_iff in H. destruct H as [q [Hq Hin]].
  apply in_map_iff. exists q. split; [exact Hq |].
  apply filter_In. split; [exact Hin |].
  destruct (where_ q) eqn:Hw; [| reflexivity]. exfalso.
  assert (Hr : Db.referenced sections q = false).
  { apply (existsb_false_In _ _ q Hfk). apply filter_In. now split. }
  unfold Db.referenced in Hr.
  pose proof (existsb_false_In _ _ s Hr Hs) as Hne. cbn beta in Hne.
  rewrite Hq, String.eqb_refl in Hne. discriminate Hne.
Qed.

Lemma existsb_id_In l x :
  existsb (fun p => String.eqb (Proposals.id p) x) l = true ->
  In x (map Proposals.id l).
Proof.
  intros H. apply existsb_exists in H. destruct H as [p [Hin E]].
  apply String.eqb_eq in E. subst x. now apply in_map.
Qed.

(** Every operation keeps the sections referring to stored proposals. *)
Lemma call_referencesHold op raw context rt w :
  referencesHold (db w) ->
  referencesHold (db (snd (call op raw context rt w))).
Proof.
  unfold referencesHold. intros H.
  destruct op; run.
  all: branches; try exact H.
  all: try (eapply references_more_proposals; [| exact H];
            intros x Hx; rewrite map_app; apply in_or_app; now left).
  all: try (rewrite map_id_assign; exact H).
  all: try (now apply references_after_delete).
  all: try (apply Forall_forall; intros s Hs; apply filter_In in Hs;
            rewrite Forall_forall in H; now apply H).
  all: try (apply Forall_app; split; [exact H |];
            constructor; [| constructor]; cbn;
            match goal with
            | Hn : negb (existsb _ _) = false |- _ =>
                apply negb_false_iff in Hn; cbn in Hn;
                now apply existsb_id_In
            end).
  apply Forall_map. eapply Forall_impl; [| exact H].
  intros x Hx. cbn beta. destruct (ProposalSections.idIs _ x); [| exact Hx].
  cbn.
  match goal with
  | Hf : hd_error (Db.limited (Some 1) (filter (ownedBy _ _) _)) = Some ?q
    |- _ => apply first_owned_inv in Hf; destruct Hf as [Hin [Hi _]];
            rewrite <- Hi; now apply in_map
  end.
Qed.

(** X22.  In every world the seven operations can bring about from the
    empty database: proposal ids are distinct, every section has a
    positive integer order index and no id and refers to a stored
    proposal; when the clock does not run backwards, no [updatedAt] is
    ahead of it. *)
Theorem reachable_world_is_consistent rt w :
  reachable rt w ->
  keysUnique (db w)
  /\ sectionsOrdered (db w)
  /\ Forall (fun s => ProposalSections.id s = None) (tProposalSections (db w))
  /\ referencesHold (db w)
  /\ (monotone rt -> notAhead rt w).
Proof.
  intros Hr.
  induction Hr as [|op raw context w Hr [Hk [Hw [Hn [Hf Ha]]]]].
  - repeat split; try constructor.
  - pose proof (call_step op raw context rt w) as Hp.
    pose proof (call_sectionsStep op raw context rt w) as Hs.
    split; [exact (step_keysUnique _ _ _ Hp Hk) |].
    split; [exact (step_sectionsOrdered _ _ _ Hs Hw) |].
    split; [exact (step_sections_unkeyed _ _ _ Hs Hn) |].
    split; [now apply call_referencesHold |].
    intros Hm. exact (step_notAhead _ _ _ Hm Hp (Ha Hm)).
Qed.

Lemma reachable_world_is_consistent_witness :
  let w := snd (call CreateProposal
                     (Js.VObject [("title", Js.VString "Website proposal")])
                     (signedIn Sample.userA) Sample.runtime emptyWorld) in
  reachable Sample.runtime w /\ keysUnique (db w) /\ referencesHold (db w).
Proof.
  intros w.
  assert (Hr : reachable Sample.runtime w)
    by (apply ReachCall; apply ReachEmpty).
  destruct (reachable_world_is_consistent Sample.runtime w Hr)
    as [Hk [_ [_ [Hf _]]]].
  split; [exact Hr | split; [exact Hk | exact Hf]].
Defined.

Lemma reachable_unkeyed rt w :
  reachable rt w ->
  Forall (fun s => ProposalSections.id s = None) (tProposalSections (db w)).
Proof.
  intros Hr. induction Hr as [|op raw context w Hr IH]; [constructor |].
  exact (step_sections_unkeyed _ _ _ (call_sectionsStep op raw context rt w) IH).
Qed.

Lemma unkeyed_none_selected (f : ProposalSections.row -> bool) sid l :
  Forall (fun s => ProposalSections.id s = None) l ->
  filter (fun s => ProposalSections.idIs sid s && f s) l = [].
Proof.
  induction 1 as [|s l Hs _ IH]; cbn; [reflexivity |].
  unfold ProposalSections.idIs at 1. now rewrite Hs.
Qed.

Lemma unkeyed_none_found sid l :
  Forall (fun s => ProposalSections.id s = None) l ->
  find (ProposalSections.idIs sid) l = None.
Proof.
  induction 1 as [|s l Hs _ IH]; cbn; [reflexivity |].
  unfold ProposalSections.idIs at 1. now rewrite Hs.
Qed.

(** X23.  Through the operations alone no section can be updated or
    deleted.  In every world the operations can bring about from the
    empty database, [deleteSection] throws whatever its input and its
    caller, and so does [saveSection] whenever its input has a non-empty
    [id]; neither changes the database. *)
Theorem sections_cannot_be_changed rt w raw context :
  reachable rt w ->
  (exists e w',
      server.deleteSection raw context rt w = (Throw e, w')
      /\ db w' = db w)
  /\ (forall i sid,
         input.saveSection raw = Some i ->
         input.ss_id i = Some sid ->
         sid <> "" ->
         exists e w',
           server.saveSection raw context rt w = (Throw e, w')
           /\ db w' = db w).
Proof.
  intros Hr.
  pose proof (reachable_unkeyed rt w Hr) as Hn.
  split.
  - unfold server.deleteSection, defineAction.
    destruct (input.deleteSection raw) as [i|];
      [| eexists _, _; split; reflexivity].
    run.
    destruct (localsUser context); [| eexists _, _; split; reflexivity].
    destruct (hd_error (Db.limited (Some 1) _));
      [| eexists _, _; split; reflexivity].
    world.
    pose proof (unkeyed_none_selected
                  (fun s => String.eqb (ProposalSections.proposalId s)
                                       (input.ds_proposalId i))
                  (input.ds_id i) _ Hn) as Hsel.
    rewrite Hsel. cbn [hd_error].
    eexists _, _. split; [reflexivity |].
    cbn [db tProposals tProposalSections].
    rewrite (filter_none_negb _ _ Hsel). apply same_db.
  - intros i sid Hp Hid Hne. unfold server.saveSection.
    rewrite (defineAction_parsed _ _ _ _ _ Hp). run.
    rewrite Hid. destruct sid as [|a sid]; [congruence |]. cbn [Js.truthy].
    destruct (localsUser context); [| eexists _, _; split; reflexivity].
    destruct (hd_error (Db.limited (Some 1) _));
      [| eexists _, _; split; reflexivity].
    world. rewrite first_selected, (unkeyed_none_found _ _ Hn).
    eexists _, _; split; reflexivity.
Qed.

Lemma sections_cannot_be_changed_witness :
  let w := snd (call SaveSection
                     (Js.VObject [("proposalId", Js.VString "p1");
                                  ("orderIndex", Js.VNumber (Js.ofPos 1));
                                  ("content", Js.VString "Intro text")])
                     (signedIn Sample.userA) Sample.runtime
                     (snd (call CreateProposal
                                (Js.VObject [("id", Js.VString "p1");
                                             ("title", Js.VString "Website proposal")])
                                (signedIn Sample.userA) Sample.runtime
                                emptyWorld))) in
  List.length (tProposalSections (db w)) = 1
  /\ exists e w',
      server.deleteSection
        (Js.VObject [("id", Js.VString "s1"); ("proposalId", Js.VString "p1")])
        (signedIn Sample.userA) Sample.runtime w
      = (Throw e, w')
      /\ db w' = db w.
Proof.
  intros w. split; [reflexivity |].
  assert (Hr : reachable Sample.runtime w)
    by (apply ReachCall; apply ReachCall; apply ReachEmpty).
  exact (proj1 (sections_cannot_be_changed
                  Sample.runtime w
                  (Js.VObject [("id", Js.VString "s1");
                               ("proposalId", Js.VString "p1")])
                  (signedIn Sample.userA) Hr)).
Defined.

(* ================================================================== *)
(** ** What the client refuses                                          *)
(* ================================================================== *)

Lemma unsafe_finite n : Sql.unsafe n = true -> Sql.finite n = true.
Proof. destruct n; cbn; intros H; try reflexivity; discriminate H. Qed.

Lemma unsafe_stored n : Sql.unsafe n = true -> Sql.number n = n.
Proof. destruct n; cbn; intros H; try reflexivity; discriminate H. Qed.

(** X24.  [createProposal] and a number the client refuses.  The caller
    is signed in, the input passes the schema and has an
    [estimatedValue], and the id is not in use.  When the number is not
    finite, the call throws the client's [RangeError] and no statement
    was sent.  When the number is an unsafe integer, the INSERT is
    applied, so the proposal is stored, and the call then throws the
    client's [RangeError] instead of returning it. *)
Theorem createProposal_number_refused raw i n u rt w :
  input.createProposal raw = Some i ->
  input.cp_estimatedValue i = Some n ->
  let id := match input.cp_id i with
            | Some x => x
            | None => uuid rt (uuidReads w)
            end in
  ~ In id (map Proposals.id (tProposals (db w))) ->
  (Sql.finite n = false ->
   exists w',
     server.createProposal raw (signedIn u) rt w = (Throw RangeError, w')
     /\ db w' = db w
     /\ queries w' = queries w)
  /\ (Sql.unsafe n = true ->
      exists p w',
        server.createProposal raw (signedIn u) rt w = (Throw RangeError, w')
        /\ tProposals (db w') = tProposals (db w) ++ [p]
        /\ Proposals.id p = id
        /\ Proposals.userId p = App.id u
        /\ Proposals.estimatedValue p = Some n
        /\ queries w' = queries w ++ [Insert TProposals]).
Proof.
  intros Hp Hn id Hfresh.
  pose proof (existsb_id_absent _ _ Hfresh) as Hex. subst id.
  split; intros Hbad; unfold server.createProposal;
    rewrite (defineAction_parsed _ _ _ _ _ Hp); run_as;
    unfold Proposals.readable, Proposals.stored;
    destruct (input.cp_id i) as [x|]; world;
    cbn [Proposals.id Proposals.estimatedValue Proposals.userId];
    rewrite Hn; cbn [Sql.bindable Sql.readable option_map].
  - rewrite Hbad. cbn [negb]. eexists. repeat split.
  - rewrite Hbad. cbn [negb]. eexists. repeat split.
  - rewrite (unsafe_finite _ Hbad), Hex, (unsafe_stored _ Hbad), Hbad.
    cbn [negb]. eexists _, _. repeat split.
  - rewrite (unsafe_finite _ Hbad), Hex, (unsafe_stored _ Hbad), Hbad.
    cbn [negb]. eexists _, _. repeat split.
Qed.

Lemma createProposal_number_refused_witness :
  exists p w',
    server.createProposal
      (Js.VObject [("id", Js.VString "p9"); ("title", Js.VString "Retainer");
                   ("estimatedValue", Js.VNumber Sample.twoTo53)])
      (signedIn Sample.userA) Sample.runtime Sample.world1
    = (Throw RangeError, w')
    /\ tProposals (db w') = [Sample.proposal1; p]
    /\ Proposals.id p = "p9".
Proof.
  destruct (createProposal_number_refused
              (Js.VObject [("id", Js.VString "p9");
                           ("title", Js.VString "Retainer");
                           ("estimatedValue", Js.VNumber Sample.twoTo53)])
              {| input.cp_id := Some "p9"; input.cp_title := "Retainer";
                 input.cp_clientName := None; input.cp_projectName := None;
                 input.cp_currency := None;
                 input.cp_estimatedValue := Some Sample.twoTo53;
                 input.cp_status := None; input.cp_notes := None |}
              Sample.twoTo53 Sample.userA Sample.runtime Sample.world1
              eq_refl eq_refl) as [_ H].
  - intros [E | []]. discriminate E.
  - destruct (H eq_refl) as [p [w' [H1 [H2 [H3 _]]]]].
    exists p, w'. split; [exact H1 | split; [exact H2 | exact H3]].
Defined.






Lemma reachable_referencesHold rt w : reachable rt w -> referencesHold (db w).
Proof.
  intros Hr. induction Hr as [|op raw context w Hr IH]; [constructor |].
  now apply call_referencesHold.
Qed.

(** X27.  A proposal that has a section stays.  In every world the
    operations can bring about from the empty database, a stored section
    and the proposal it refers to outlast every operation, whatever its
    input and its caller: the section cannot be reached (it has no id),
    and the database refuses to delete a proposal a section refers to. *)
Theorem proposal_with_section_stays op raw context rt w s :
  reachable rt w ->
  In s (tProposalSections (db w)) ->
  In s (tProposalSections (db (snd (call op raw context rt w))))
  /\ exists p,
      In p (tProposals (db (snd (call op raw context rt w))))
      /\ Proposals.id p = ProposalSections.proposalId s.
Proof.
  intros Hr Hs.
  assert (Hid : ProposalSections.id s = None).
  { pose proof (reachable_unkeyed rt w Hr) as Hn.
    rewrite Forall_forall in Hn. now apply Hn. }
  assert (Hs' : In s (tProposalSections (db (snd (call op raw context rt w))))).
  { exact (step_keeps_unkeyed _ _ _ s
             (call_sectionsStep op raw context rt w) Hs Hid). }
  split; [exact Hs' |].
  pose proof (reachable_referencesHold rt _ (ReachCall rt op raw context w Hr))
    as Hf.
  unfold referencesHold in Hf. rewrite Forall_forall in Hf.
  specialize (Hf s Hs'). apply in_map_iff in Hf.
  destruct Hf as [p [Hp Hin]]. now exists p.
Qed.

Lemma proposal_with_section_stays_witness :
  let w := snd (call SaveSection
                     (Js.VObject [("proposalId", Js.VString "p1");
                                  ("orderIndex", Js.VNumber (Js.ofPos 1));
                                  ("content", Js.VString "Intro text")])
                     (signedIn Sample.userA) Sample.runtime
                     (snd (call CreateProposal
                                (Js.VObject [("id", Js.VString "p1");
                                             ("title", Js.VString "Website proposal")])
                                (signedIn Sample.userA) Sample.runtime
                                emptyWorld))) in
  exists s p,
    tProposalSections (db w) = [s]
    /\ In p (tProposals
               (db (snd (call DeleteProposal
                              (Js.VObject [("id", Js.VString "p1")])
                              (signedIn Sample.userA) Sample.runtime w))))
    /\ Proposals.id p = "p1".
Proof.
  intros w.
  assert (Hr : reachable Sample.runtime w)
    by (apply ReachCall; apply ReachCall; apply ReachEmpty).
  eexists.
  destruct (proposal_with_section_stays
              DeleteProposal (Js.VObject [("id", Js.VString "p1")])
              (signedIn Sample.userA) Sample.runtime w _ Hr
              (or_introl eq_refl)) as [_ [p [Hin Hp]]].
  exists p. split; [reflexivity | split; [exact Hin | exact Hp]].
Defined.
